(** * mo2-install: the installation resolution engine of [src.cpp]

    A shallow embedding of the C++ core of the MO2 simple installer:
    the process-wide flag table [pluginFlags], the dependency evaluator
    [areDependenciesMet], the flag extraction [extractFlags], and the
    exported entry point [install] with its two resolution strategies
    (nested-folder heuristic and module-config driven).

    The file system, the JSON document and the XML document are the
    already-parsed objects the engine consumes.  The XPath engine of the
    XML library is a parameter of the model ([select_nodes]); a reference
    evaluator for the three query shapes [install] builds is given at the
    end of the definitions and is used by the examples. *)

From Stdlib Require Import Ascii String.
From stdpp Require Import gmap strings list.

Local Open Scope string_scope.
Local Set Warnings "-register-all".

(** ** Parsed XML documents (pugixml) *)

(** With the default parse flags a loaded document holds element nodes and
    character data only; comments, processing instructions and the
    declaration are dropped by the parser. *)
Inductive xml_node : Type :=
  | node_element (tag : string) (attrs : list (string * string))
                 (kids : list xml_node)
  | node_pcdata (value : string).

(** A document is the list of children of the (nameless) document node. *)
Definition xml_document : Type := list xml_node.

(** A node handle as the code holds it: the node together with the chain of
    its enclosing elements, nearest first, which is what [parent()] walks. *)
Record xml_handle : Type := XmlHandle {
  self : xml_node;
  ancestors : list xml_node
}.

(** [xml_node::name()]: character data has the empty name. *)
Definition name (n : xml_node) : string :=
  match n with
  | node_element t _ _ => t
  | node_pcdata _ => EmptyString
  end.

(** [xml_node::children()]: every child node, in document order. *)
Definition children (n : xml_node) : list xml_node :=
  match n with
  | node_element _ _ ks => ks
  | node_pcdata _ => []
  end.

Definition has_name (nm : string) (n : xml_node) : bool :=
  match n with
  | node_element t _ _ => bool_decide (t = nm)
  | node_pcdata _ => false
  end.

(** [xml_node::children(name)]: the child elements with that name. *)
Definition children_named (n : xml_node) (nm : string) : list xml_node :=
  List.filter (has_name nm) (children n).

(** [xml_node::child(name)]: the first child element with that name; [None]
    is the empty handle, which converts to [false]. *)
Definition child (n : xml_node) (nm : string) : option xml_node :=
  List.find (has_name nm) (children n).

(** [xml_node::attribute(name)]: the first attribute with that name. *)
Definition attribute (n : xml_node) (key : string) : option string :=
  match n with
  | node_element _ ats _ =>
      snd <$> List.find (fun kv => bool_decide (fst kv = key)) ats
  | node_pcdata _ => None
  end.

(** [xml_attribute::value()]: the empty string for the empty handle. *)
Definition attribute_value (n : xml_node) (key : string) : string :=
  default EmptyString (attribute n key).

(** [xml_attribute::as_string(def)]. *)
Definition attribute_as_string (n : xml_node) (key def : string) : string :=
  default def (attribute n key).

Definition is_pcdata (n : xml_node) : bool :=
  match n with
  | node_pcdata _ => true
  | node_element _ _ _ => false
  end.

(** [xml_node::text().as_string()]: the value of the first character-data
    child, the empty string when there is none. *)
Definition text (n : xml_node) : string :=
  match List.find is_pcdata (children n) with
  | Some (node_pcdata v) => v
  | _ => EmptyString
  end.

(** ** The machine state of one process *)

Inductive copy_kind : Type := file | folder.

Definition path : Type := string.

(** [path::is_absolute] in the generic format: the text starts with the
    separator.  Root names (drive letters) are not modelled. *)
Definition is_absolute (p : path) : bool :=
  match p with
  | String c _ => bool_decide (c = "/"%char)
  | EmptyString => false
  end.

(** The text ends with the separator, so it has no file name. *)
Fixpoint ends_with_separator (p : path) : bool :=
  match p with
  | EmptyString => false
  | String c rest =>
      match rest with
      | EmptyString => bool_decide (c = "/"%char)
      | String _ _ => ends_with_separator rest
      end
  end.

(** [fs::path::operator/]: an absolute right operand replaces the left one;
    otherwise the right operand is appended, after a separator when the
    left operand has a file name (it is not empty and does not end with a
    separator already). *)
Definition path_join (a b : path) : path :=
  if is_absolute b then b
  else if bool_decide (a = EmptyString) || ends_with_separator a then a +:+ b
  else a +:+ "/" +:+ b.

Infix "//" := path_join (at level 40, left associativity).

(** One call of [copyFile] / [copyFolder] (or of [fs::copy_file]): an entry
    of the file-mapping plan. *)
Record FileMapping : Type := Mapping {
  kind : copy_kind;
  source : path;
  destination : path
}.

(** The state that outlives a statement: the global [pluginFlags] and the
    copies issued so far, oldest first. *)
Record state : Type := State {
  pluginFlags : gmap string string;
  copies : list FileMapping
}.

(** What the code of [install] and the two parsers throw; every one derives
    from [std::exception].  [runtime_error] stands for the exceptions the
    code constructs itself, with their message.  The errors of the
    file-system library are not among them: see [copyFile]. *)
Inductive exception : Type :=
  | runtime_error (what : string)
  | json_exception
  | xpath_exception.

Inductive outcome (A : Type) : Type :=
  | Done (a : A)
  | Thrown (e : exception).

Arguments Done {A} a.
Arguments Thrown {A} e.

(** Statements: state passing with exceptions. *)
Definition M (A : Type) : Type := state -> outcome A * state.

Definition ret {A} (a : A) : M A := fun s => (Done a, s).

Definition throw {A} (e : exception) : M A := fun s => (Thrown e, s).

Definition bind {A B} (m : M A) (k : A -> M B) : M B :=
  fun s =>
    match m s with
    | (Done a, s') => k a s'
    | (Thrown e, s') => (Thrown e, s')
    end.

#[global] Instance M_ret : MRet M := @ret.
#[global] Instance M_bind : MBind M := fun A B k m => bind m k.

(** A range-based [for] whose body may throw. *)
Fixpoint for_each {A} (l : list A) (body : A -> M unit) : M unit :=
  match l with
  | [] => ret tt
  | x :: l' => body x ;; for_each l' body
  end.

(** [pluginFlags[k] = v]. *)
Definition set_flag (k v : string) : M unit :=
  fun s => (Done tt, State (<[k := v]> (pluginFlags s)) (copies s)).

(** [pluginFlags.find(k) != pluginFlags.end()]. *)
Definition flag_exists (k : string) : M bool :=
  fun s => (Done (bool_decide (is_Some (pluginFlags s !! k))), s).

(** [pluginFlags[k]] read as an rvalue: [operator[]] of an unordered map
    inserts a value-initialised entry when the key is missing. *)
Definition flag_index (k : string) : M string :=
  fun s =>
    match pluginFlags s !! k with
    | Some v => (Done v, s)
    | None => (Done EmptyString, State (<[k := EmptyString]> (pluginFlags s)) (copies s))
    end.

Definition emit (m : FileMapping) : M unit :=
  fun s => (Done tt, State (pluginFlags s) (copies s ++ [m])).

(** The [copyFile] and [copyFolder] lambdas, lines 375-402, as the calls
    they are: the state records that the copy was asked for, with its kind,
    source and destination.  What the call then does on the disk is not
    part of the model: a missing source and a failed [fs::copy] are logged
    and skipped there, and an exception of [fs::exists], of
    [fs::create_directories] or of the directory iterator, which would
    leave the lambda and end the call of [install], has no counterpart
    here. *)
Definition copyFile (src dst : path) : M unit := emit (Mapping file src dst).
Definition copyFolder (src dst : path) : M unit := emit (Mapping folder src dst).

(** ** Flag extraction and the dependency evaluator *)

(** [extractFlags], lines 252-263. *)
Definition extractFlags (pluginNode : xml_node) : M unit :=
  match child pluginNode "conditionFlags" with
  | Some conditionFlagsNode =>
      for_each (children_named conditionFlagsNode "flag") (fun flagNode =>
        let flagName := attribute_value flagNode "name" in
        let flagValue := text flagNode in
        if bool_decide (flagName = EmptyString) then ret tt
        else set_flag flagName flagValue)
  | None => ret tt
  end.

(** The two locals computed per [flagDependency], lines 310-313; [&&]
    short-circuits, so the indexing only runs for a key that exists. *)
Definition flagMatches (flagName requiredValue : string) : M bool :=
  flagExists ← flag_exists flagName ;
  if (flagExists : bool) then
    stored ← flag_index flagName;
    ret (bool_decide (stored = requiredValue))
  else ret false.

(** The loop of [areDependenciesMet], lines 309-318, with the accumulator
    [result] passed along. *)
Fixpoint dependencies_loop (operatorType : string) (deps : list xml_node)
    (result : bool) : M bool :=
  match deps with
  | [] => ret result
  | depNode :: rest =>
      let flagName := attribute_value depNode "flag" in
      let requiredValue := attribute_value depNode "value" in
      matches ← flagMatches flagName requiredValue;
      dependencies_loop operatorType rest
        (if bool_decide (operatorType = "And") then result && matches
         else if bool_decide (operatorType = "Or") then result || matches
         else result)
  end.

(** [areDependenciesMet], lines 306-320. *)
Definition areDependenciesMet (dependenciesNode : xml_node) : M bool :=
  let operatorType := attribute_as_string dependenciesNode "operator" "And" in
  let result := bool_decide (operatorType = "And") in
  dependencies_loop operatorType
    (children_named dependenciesNode "flagDependency") result.

(** ** Parsed JSON values (nlohmann::json) *)

Inductive json : Type :=
  | json_null
  | json_boolean (b : bool)
  | json_number (z : Z)
  | json_string (str : string)
  | json_array (items : list json)
  | json_object (members : list (string * json)).

(** Member lookup in an object; [None] for a missing key and for a value
    that is not an object. *)
Definition member (j : json) (key : string) : option json :=
  match j with
  | json_object ms => snd <$> List.find (fun kv => bool_decide (fst kv = key)) ms
  | _ => None
  end.

(** [j.contains(key)]. *)
Definition contains (j : json) (key : string) : bool :=
  bool_decide (is_Some (member j key)).

Definition is_string (j : json) : bool :=
  match j with json_string _ => true | _ => false end.

Definition is_array (j : json) : bool :=
  match j with json_array _ => true | _ => false end.

Definition is_object (j : json) : bool :=
  match j with json_object _ => true | _ => false end.

(** [j.get<std::string>()]: a type error for anything but a string. *)
Definition get_string (j : json) : M string :=
  match j with
  | json_string v => ret v
  | _ => throw json_exception
  end.

(** [j.value(key, def)]: a type error when [j] is not an object or when the
    member is present with another type. *)
Definition value (j : json) (key def : string) : M string :=
  if is_object j then
    match member j key with
    | Some v => get_string v
    | None => ret def
    end
  else throw json_exception.

(** [std::string x = j[key]] on an object: a missing member reads as null,
    which does not convert to a string. *)
Definition index_string (j : json) (key : string) : M string :=
  if is_object j then get_string (default json_null (member j key))
  else throw json_exception.

(** The elements a range-based [for] visits in an array. *)
Definition elements_of (j : json) : list json :=
  match j with json_array xs => xs | _ => [] end.

(** ** The extracted archive *)

(** A file carries what [xml_document::load_file] yields for it: the parsed
    document, or the description of the failed load.  Entry names are
    looked up exactly, as on a case-sensitive file system; the order of the
    entries is the order in which a directory iterator yields them. *)
Inductive fs_entry : Type :=
  | fs_file (filename : string) (load : string + xml_document)
  | fs_dir (filename : string) (entries : list fs_entry).

Definition entry_name (e : fs_entry) : string :=
  match e with
  | fs_file n _ => n
  | fs_dir n _ => n
  end.

Definition is_directory (e : fs_entry) : bool :=
  match e with
  | fs_dir _ _ => true
  | fs_file _ _ => false
  end.

Definition dir_entries (e : fs_entry) : list fs_entry :=
  match e with
  | fs_dir _ es => es
  | fs_file _ _ => []
  end.

(** [fs::exists(dir / nm)] for a directory with entries [es]. *)
Definition lookup_entry (es : list fs_entry) (nm : string) : option fs_entry :=
  List.find (fun e => bool_decide (entry_name e = nm)) es.

Definition tolower (c : ascii) : ascii :=
  let n := nat_of_ascii c in
  if (65 <=? n)%nat && (n <=? 90)%nat then ascii_of_nat (n + 32) else c.

(** [to_lower], lines 292-297. *)
Fixpoint to_lower (input : string) : string :=
  match input with
  | EmptyString => EmptyString
  | String c rest => String (tolower c) (to_lower rest)
  end.

(** The scan of lines 422-426: a pre-order walk that stops at the first
    directory named like [fomod] holding an entry [ModuleConfig.xml].  The
    result is the folder, its parent ([srcBase]) and that entry. *)
Fixpoint find_fomod (dir : path) (e : fs_entry) : option (path * path * fs_entry) :=
  match e with
  | fs_file _ _ => None
  | fs_dir nm es =>
      let here :=
        if bool_decide (to_lower nm = "fomod")
        then lookup_entry es "ModuleConfig.xml" else None in
      match here with
      | Some mc => Some (dir // nm, dir, mc)
      | None =>
          (fix scan (l : list fs_entry) : option (path * path * fs_entry) :=
             match l with
             | [] => None
             | e' :: l' =>
                 match find_fomod (dir // nm) e' with
                 | Some r => Some r
                 | None => scan l'
                 end
             end) es
      end
  end.

Fixpoint find_fomod_in (dir : path) (es : list fs_entry) : option (path * path * fs_entry) :=
  match es with
  | [] => None
  | e :: es' =>
      match find_fomod dir e with
      | Some r => Some r
      | None => find_fomod_in dir es'
      end
  end.

(** The marker sub-folders of lines 448-454. *)
Definition markers : list string :=
  ["SKSE"; "meshes"; "textures"; "interface"; "sound"; "scripts"; "seq"].

(** The test of lines 446-455 on one entry of the archive root. *)
Definition is_main_mod_folder (e : fs_entry) : bool :=
  is_directory e &&
  existsb (fun m => bool_decide (is_Some (lookup_entry (dir_entries e) m))) markers.

(** ** One call of [install] *)

(** What one call receives from its arguments and its environment. *)
Record Call : Type := {
  archivePath : string;
  modPath : path;
  (** [temp_directory_path() / generateRandom(...)] *)
  newTempDir : path;
  (** the archive path with its extension replaced by [.json] *)
  jPath : path;
  (** the tree [extractArchive] leaves under [newTempDir/archive];
      [None] when it reports a failure *)
  extracted : option (list fs_entry);
  (** the side file at [jPath]: [None] when there is none to open,
      [Some None] when its text is not JSON *)
  json_file : option (option json)
}.

(** The [parseJson] lambda, lines 357-364. *)
Definition parseJson (c : Call) : M json :=
  match json_file c with
  | None => throw (runtime_error ("Cannot open JSON config: " +:+ jPath c))
  | Some None => throw json_exception
  | Some (Some j) => ret j
  end.

(** The [parseXml] lambda, lines 366-373, on the entry found at the path. *)
Definition parseXml (e : fs_entry) : M xml_document :=
  match e with
  | fs_file _ (inr doc) => ret doc
  | fs_file _ (inl description) =>
      throw (runtime_error ("Cannot parse XML (" +:+ description +:+ ")"))
  | fs_dir _ _ =>
      throw (runtime_error ("Cannot parse XML (" +:+ "File was not found" +:+ ")"))
  end.

(** The children of a mod folder at [dir] copied to the top of the mod
    directory, lines 466-471 and 494-499. *)
Definition copy_contents (c : Call) (dir : path) (es : list fs_entry) : M unit :=
  for_each es (fun entry =>
    if is_directory entry
    then copyFolder (dir // entry_name entry) (modPath c // entry_name entry)
    else copyFile (dir // entry_name entry) (modPath c // entry_name entry)).

(** Lines 434-441: the lower-cased [moduleName] of the side file, empty
    when the file or a string member of that name is missing. *)
Definition load_moduleName (c : Call) : M string :=
  if bool_decide (is_Some (json_file c)) then
    configJson ← parseJson c;
    if contains configJson "moduleName"
       && is_string (default json_null (member configJson "moduleName"))
    then
      moduleName ← get_string (default json_null (member configJson "moduleName"));
      ret (to_lower moduleName)
    else ret EmptyString
  else ret EmptyString.

(** Lines 474-499: several candidates, one of which [moduleName] must pick. *)
Definition disambiguate (c : Call) (archiveRoot : path)
    (mainModFolders : list fs_entry) (moduleNameLower : string) : M unit :=
  if bool_decide (moduleNameLower = EmptyString) then
    throw (runtime_error
      "Multiple mod folders detected but no moduleName in JSON to disambiguate.")
  else
    let matches :=
      List.filter (fun p => bool_decide (to_lower (entry_name p) = moduleNameLower))
                  mainModFolders in
    match matches with
    | [chosen] =>
        copy_contents c (archiveRoot // entry_name chosen) (dir_entries chosen)
    | [] =>
        throw (runtime_error
          ("moduleName '" +:+ moduleNameLower +:+ "' did not match any folder."))
    | _ :: _ :: _ =>
        throw (runtime_error
          ("moduleName '" +:+ moduleNameLower +:+ "' matched multiple folders."))
    end.

(** The branch taken when no [fomod] folder was found, lines 428-515. *)
Definition install_nested (c : Call) (archiveRoot : path)
    (root : list fs_entry) : M path :=
  moduleNameLower ← load_moduleName c;
  let mainModFolders := List.filter is_main_mod_folder root in
  match mainModFolders with
  | [] =>
      copyFolder archiveRoot (modPath c);;
      ret (modPath c)
  | [singleMod] =>
      copy_contents c (archiveRoot // entry_name singleMod) (dir_entries singleMod);;
      ret (modPath c)
  | _ :: _ :: _ =>
      disambiguate c archiveRoot mainModFolders moduleNameLower;;
      ret (modPath c)
  end.

(** The [file] / [folder] / other dispatch on the children of a [files] or
    [requiredInstallFiles] element, lines 529-543, 575-591 and 607-623. *)
Definition install_entries (srcBase dstBase : path) (nodes : list xml_node) : M unit :=
  for_each nodes (fun fileNode =>
    let nodeName := name fileNode in
    let src := srcBase // attribute_value fileNode "source" in
    let dst := dstBase // attribute_value fileNode "destination" in
    if bool_decide (nodeName = "file") then copyFile src dst
    else if bool_decide (nodeName = "folder") then copyFolder src dst
    else ret tt).

(** Lines 562-564: from the plugin node upwards to the first element named
    [installStep]. *)
Definition enclosing_installStep (h : xml_handle) : option xml_node :=
  List.find (fun n => bool_decide (name n = "installStep")) (self h :: ancestors h).

(** Lines 565-572: whether the plugin is skipped; the predicate is only
    evaluated when the step has a [visible] child. *)
Definition step_hidden (h : xml_handle) : M bool :=
  match enclosing_installStep h with
  | Some installStepNode =>
      match child installStepNode "visible" with
      | Some visibleNode =>
          met ← areDependenciesMet visibleNode;
          ret (negb met)
      | None => ret false
      end
  | None => ret false
  end.

(** The body of the loop over the selected plugin nodes, lines 559-592. *)
Definition process_plugin (srcBase dstBase : path) (h : xml_handle) : M unit :=
  let pluginNode := self h in
  extractFlags pluginNode;;
  hidden ← step_hidden h;
  if (hidden : bool) then ret tt
  else
    match child pluginNode "files" with
    | Some filesNode => install_entries srcBase dstBase (children filesNode)
    | None => ret tt
    end.

(** The body of the loop over the patterns, lines 601-623. *)
Definition process_pattern (srcBase dstBase : path) (pattern : xml_node) : M unit :=
  unmet ← match child pattern "dependencies" with
          | Some dependenciesNode =>
              met ← areDependenciesMet dependenciesNode;
              ret (negb met)
          | None => ret false
          end;
  if (unmet : bool) then ret tt
  else
    install_entries srcBase dstBase
      (from_option children [] (child pattern "files")).

Definition dquote : string := String "034"%char EmptyString.

(** The query text of lines 554-556. *)
Definition plugin_xpath (installStepName groupName pluginName : string) : string :=
  "(//installStep[normalize-space(@name)=" +:+ dquote +:+ installStepName +:+ dquote
  +:+ "]//optionalFileGroups//group|"
  +:+ "//optionalFileGroups//group[normalize-space(@name)=" +:+ dquote +:+ groupName
  +:+ dquote +:+ "])"
  +:+ "//plugins/plugin[normalize-space(@name)=" +:+ dquote +:+ pluginName
  +:+ dquote +:+ "]".

Definition required_xpath : string := "//requiredInstallFiles/*".
Definition pattern_xpath : string := "//conditionalFileInstalls/patterns/pattern".

(** [xml_document::select_nodes]: the nodes a query selects, in the order
    the node set is iterated; [None] when the query is rejected with an
    [xpath_exception]. *)
Definition engine : Type := xml_document -> string -> option (list xml_handle).

Section Engine.

Variable select_nodes : engine.

Definition select (doc : xml_document) (query : string) : M (list xml_handle) :=
  match select_nodes doc query with
  | Some nodes => ret nodes
  | None => throw xpath_exception
  end.

(** Lines 526-547: the required files. *)
Definition required_phase (doc : xml_document) (srcBase dstBase : path) : M unit :=
  requiredNodes ← select doc required_xpath;
  install_entries srcBase dstBase (self <$> requiredNodes).

(** The body of the loop over [installFiles], lines 551-593. *)
Definition process_selector (doc : xml_document) (srcBase dstBase : path)
    (group : json) : M unit :=
  installStepName ← value group "installStep" EmptyString;
  groupName ← value group "group" EmptyString;
  pluginName ← index_string group "plugin";
  nodes ← select doc (plugin_xpath installStepName groupName pluginName);
  for_each nodes (process_plugin srcBase dstBase).

(** Lines 549-598: the plugins the side file selects. *)
Definition selector_phase (doc : xml_document) (config : json)
    (srcBase dstBase : path) : M unit :=
  if contains config "installFiles"
     && is_array (default json_null (member config "installFiles"))
  then
    for_each (elements_of (default json_null (member config "installFiles")))
             (process_selector doc srcBase dstBase)
  else ret tt.

(** Lines 600-624: the conditional patterns. *)
Definition pattern_phase (doc : xml_document) (srcBase dstBase : path) : M unit :=
  patterns ← select doc pattern_xpath;
  for_each (self <$> patterns) (process_pattern srcBase dstBase).

(** Lines 526-624: the three passes over the parsed documents. *)
Definition resolve (doc : xml_document) (config : json)
    (srcBase dstBase : path) : M unit :=
  required_phase doc srcBase dstBase;;
  selector_phase doc config srcBase dstBase;;
  pattern_phase doc srcBase dstBase.

(** The branch taken when a [fomod] folder was found, lines 517-635.  The
    [fs::copy_file] of line 627 is recorded like the copies of the lambdas;
    that it can throw is, as for them, not modelled. *)
Definition install_fomod (c : Call) (srcBase : path) (moduleConfig : fs_entry) : M path :=
  let dstBase := newTempDir c // "unfomod" in
  config ← parseJson c;
  doc ← parseXml moduleConfig;
  resolve doc config srcBase dstBase;;
  emit (Mapping file (jPath c) (dstBase // "mo2si.json"));;
  copyFolder dstBase (modPath c);;
  ret (modPath c).

(** [install], lines 352-642.  [Done p] is the return of the destination
    path; [Thrown e] is the handler of line 637 returning [e.what()]. *)
Definition install (c : Call) : M path :=
  match extracted c with
  | None => throw (runtime_error ("Failed to extract archive: " +:+ archivePath c))
  | Some root =>
      let archiveRoot := newTempDir c // "archive" in
      match find_fomod_in archiveRoot root with
      | None => install_nested c archiveRoot root
      | Some (_, srcBase, moduleConfig) => install_fomod c srcBase moduleConfig
      end
  end.

(** Successive calls in one process: [pluginFlags] is a global, so each
    call starts from the table the previous one left.  The copies are
    reported per call. *)
Fixpoint run_calls (cs : list Call) (flags : gmap string string)
    : list (outcome path * list FileMapping) * gmap string string :=
  match cs with
  | [] => ([], flags)
  | c :: cs' =>
      let '(r, s) := install c (State flags []) in
      let '(rs, flags') := run_calls cs' (pluginFlags s) in
      ((r, copies s) :: rs, flags')
  end.

End Engine.

(** ** A reference evaluator for the queries of [install]

    XPath 1.0 semantics of the three query shapes, nodes in document order.
    Any other query text is reported as rejected.  This is narrower than
    the library, which evaluates every well-formed query (also one that a
    quoted name turns into another query) and does not sort the nodes of a
    union; the evaluator serves the sample runs, and the general statements
    hold for every engine. *)
Module Reference.

Definition is_space (c : ascii) : bool :=
  let n := nat_of_ascii c in
  (n =? 32)%nat || (n =? 9)%nat || (n =? 10)%nat || (n =? 13)%nat.

Fixpoint normalize_from (gap started : bool) (s : string) : string :=
  match s with
  | EmptyString => EmptyString
  | String c r =>
      if is_space c then normalize_from true started r
      else if gap && started
           then String " "%char (String c (normalize_from false true r))
           else String c (normalize_from false true r)
  end.

(** XPath [normalize-space]. *)
Definition normalize_space (s : string) : string := normalize_from false false s.

(** [normalize-space(@name) = lit] as a predicate on an element. *)
Definition named (lit : string) (n : xml_node) : bool :=
  bool_decide (normalize_space (attribute_value n "name") = lit).

(** The node and everything below it, each with its chain of enclosing
    elements, in document order. *)
Fixpoint descendants (up : list xml_node) (n : xml_node) : list xml_handle :=
  XmlHandle n up ::
  match n with
  | node_element _ _ ks =>
      (fix walk (l : list xml_node) : list xml_handle :=
         match l with
         | [] => []
         | k :: l' => (descendants (n :: up) k ++ walk l')%list
         end) ks
  | node_pcdata _ => []
  end.

Definition all_nodes (doc : xml_document) : list xml_handle :=
  flat_map (descendants []) doc.

Definition is_element (n : xml_node) : bool := negb (is_pcdata n).

(** [//requiredInstallFiles/*] *)
Definition is_required (h : xml_handle) : bool :=
  is_element (self h) &&
  match ancestors h with
  | parent :: _ => has_name "requiredInstallFiles" parent
  | [] => false
  end.

(** [//conditionalFileInstalls/patterns/pattern] *)
Definition is_pattern (h : xml_handle) : bool :=
  has_name "pattern" (self h) &&
  match ancestors h with
  | parent :: grandparent :: _ =>
      has_name "patterns" parent && has_name "conditionalFileInstalls" grandparent
  | _ => false
  end.

(** Below an [optionalFileGroups] that is itself below an [installStep]
    with the given name. *)
Fixpoint in_step_groups (stepName : string) (up : list xml_node) : bool :=
  match up with
  | [] => false
  | a :: up' =>
      has_name "optionalFileGroups" a
        && existsb (fun st => has_name "installStep" st && named stepName st) up'
      || in_step_groups stepName up'
  end.

(** Some enclosing [group] is selected by the left or by the right operand
    of the union. *)
Fixpoint under_group (stepName groupName : string) (up : list xml_node) : bool :=
  match up with
  | [] => false
  | g :: up' =>
      has_name "group" g
        && (in_step_groups stepName up'
            || named groupName g && existsb (has_name "optionalFileGroups") up')
      || under_group stepName groupName up'
  end.

(** The query of [plugin_xpath]. *)
Definition is_selected_plugin (stepName groupName pluginName : string)
    (h : xml_handle) : bool :=
  has_name "plugin" (self h) && named pluginName (self h) &&
  match ancestors h with
  | parent :: up => has_name "plugins" parent && under_group stepName groupName up
  | [] => false
  end.

Fixpoint strip_prefix (p s : string) : option string :=
  match p, s with
  | EmptyString, _ => Some s
  | String a p', String b s' => if bool_decide (a = b) then strip_prefix p' s' else None
  | String _ _, EmptyString => None
  end.

(** The text up to the first double quote, and the text after it. *)
Fixpoint until_quote (s : string) : option (string * string) :=
  match s with
  | EmptyString => None
  | String c r =>
      if bool_decide (c = "034"%char) then Some (EmptyString, r)
      else '(lit, rest) ← until_quote r; Some (String c lit, rest)
  end.

(** Reads a query of the shape [plugin_xpath] builds back into its three
    literals. *)
Definition parse_plugin_xpath (q : string) : option (string * string * string) :=
  r ← strip_prefix ("(//installStep[normalize-space(@name)=" +:+ dquote) q;
  '(stepName, r) ← until_quote r;
  r ← strip_prefix ("]//optionalFileGroups//group|"
                    +:+ "//optionalFileGroups//group[normalize-space(@name)="
                    +:+ dquote) r;
  '(groupName, r) ← until_quote r;
  r ← strip_prefix ("])//plugins/plugin[normalize-space(@name)=" +:+ dquote) r;
  '(pluginName, r) ← until_quote r;
  if bool_decide (r = "]") then Some (stepName, groupName, pluginName) else None.

Definition select_nodes : engine := fun doc query =>
  if bool_decide (query = required_xpath) then
    Some (List.filter is_required (all_nodes doc))
  else if bool_decide (query = pattern_xpath) then
    Some (List.filter is_pattern (all_nodes doc))
  else
    '(stepName, groupName, pluginName) ← parse_plugin_xpath query;
    Some (List.filter (is_selected_plugin stepName groupName pluginName)
                      (all_nodes doc)).

End Reference.

(** ** Closed forms

    Pure descriptions of what the statements above compute; the lemmas
    below relate each to the statement it describes. *)

(** One flag assertion against a table. *)
Definition satisfied (flags : gmap string string) (depNode : xml_node) : bool :=
  bool_decide (flags !! attribute_value depNode "flag"
               = Some (attribute_value depNode "value")).

(** A dependencies predicate against a table. *)
Definition evaluate (predicate : xml_node) (flags : gmap string string) : bool :=
  let operatorType := attribute_as_string predicate "operator" "And" in
  let deps := children_named predicate "flagDependency" in
  if bool_decide (operatorType = "And") then forallb (satisfied flags) deps
  else if bool_decide (operatorType = "Or") then existsb (satisfied flags) deps
  else false.

(** The assignments a plugin node makes, in order. *)
Definition flag_writes (pluginNode : xml_node) : list (string * string) :=
  match child pluginNode "conditionFlags" with
  | Some conditionFlagsNode =>
      (fun flagNode => (attribute_value flagNode "name", text flagNode)) <$>
      List.filter (fun flagNode =>
                     negb (bool_decide (attribute_value flagNode "name" = EmptyString)))
                  (children_named conditionFlagsNode "flag")
  | None => []
  end.

Definition apply_writes (writes : list (string * string))
    (flags : gmap string string) : gmap string string :=
  foldl (fun m kv => <[fst kv := snd kv]> m) flags writes.

(** The value a sequence of assignments leaves in a key, if it assigns it. *)
Fixpoint written (writes : list (string * string)) (k : string) : option string :=
  match writes with
  | [] => None
  | kv :: rest =>
      match written rest k with
      | Some v => Some v
      | None => if bool_decide (fst kv = k) then Some (snd kv) else None
      end
  end.

Definition entry_mapping (srcBase dstBase : path) (fileNode : xml_node)
    : list FileMapping :=
  let src := srcBase // attribute_value fileNode "source" in
  let dst := dstBase // attribute_value fileNode "destination" in
  if bool_decide (name fileNode = "file") then [Mapping file src dst]
  else if bool_decide (name fileNode = "folder") then [Mapping folder src dst]
  else [].

Definition entry_mappings (srcBase dstBase : path) (nodes : list xml_node)
    : list FileMapping :=
  flat_map (entry_mapping srcBase dstBase) nodes.

(** Whether the step around a plugin hides it under a given table. *)
Definition hidden_at (h : xml_handle) (flags : gmap string string) : bool :=
  match enclosing_installStep h with
  | Some installStepNode =>
      match child installStepNode "visible" with
      | Some visibleNode => negb (evaluate visibleNode flags)
      | None => false
      end
  | None => false
  end.

Definition plugin_mappings (srcBase dstBase : path) (h : xml_handle)
    : list FileMapping :=
  match child (self h) "files" with
  | Some filesNode => entry_mappings srcBase dstBase (children filesNode)
  | None => []
  end.

(** The copies one pattern contributes under a given table. *)
Definition pattern_mappings (srcBase dstBase : path) (flags : gmap string string)
    (pattern : xml_node) : list FileMapping :=
  let met := match child pattern "dependencies" with
             | Some dependenciesNode => evaluate dependenciesNode flags
             | None => true
             end in
  if met then entry_mappings srcBase dstBase
                (from_option children [] (child pattern "files"))
  else [].

(** The three names of a well-formed selector. *)
Definition selector_names (group : json) : option (string * string * string) :=
  let optional key :=
    match member group key with
    | None => Some EmptyString
    | Some (json_string v) => Some v
    | Some _ => None
    end in
  if is_object group then
    installStepName ← optional "installStep";
    groupName ← optional "group";
    pluginName ← match member group "plugin" with
                 | Some (json_string v) => Some v
                 | _ => None
                 end;
    Some (installStepName, groupName, pluginName)
  else None.

(** The assignments one selector causes. *)
Definition selector_writes (select_nodes : engine)
    (doc : xml_document) (group : json) : list (string * string) :=
  flat_map (fun h => flag_writes (self h))
    match selector_names group with
    | Some (a, b, c) => default [] (select_nodes doc (plugin_xpath a b c))
    | None => []
    end.

(** Every plugin node the selectors of a side file address, in the order
    the selector pass visits them. *)
Definition selected_plugins (select_nodes : engine)
    (doc : xml_document) (config : json) : list xml_handle :=
  if contains config "installFiles"
     && is_array (default json_null (member config "installFiles"))
  then
    flat_map (fun group =>
                match selector_names group with
                | Some (a, b, c) => default [] (select_nodes doc (plugin_xpath a b c))
                | None => []
                end)
             (elements_of (default json_null (member config "installFiles")))
  else [].

(** The [moduleName] of the side file, when it has one that is a string. *)
Definition moduleName (c : Call) : option string :=
  match json_file c with
  | Some (Some j) =>
      match member j "moduleName" with
      | Some (json_string v) => Some v
      | _ => None
      end
  | _ => None
  end.

(** The children of a folder, each mapped to the top of the mod directory. *)
Definition hoisted (c : Call) (dir : path) (es : list fs_entry) : list FileMapping :=
  (fun entry =>
     Mapping (if is_directory entry then folder else file)
             (dir // entry_name entry) (modPath c // entry_name entry)) <$> es.

(** ** Sample inputs *)
Module Sample.

Definition flagDependency (flag val : string) : xml_node :=
  node_element "flagDependency" [("flag", flag); ("value", val)] [].

Definition file_entry (tag src dst : string) : xml_node :=
  node_element tag [("source", src); ("destination", dst)] [].

(** A plugin that sets [Quality] to [High] inside a step that is visible
    only when [Quality] is [Low]. *)
Definition plugin_2K : xml_node :=
  node_element "plugin" [("name", "2K")]
    [ node_element "files" [] [file_entry "file" "2k.bsa" "2k.bsa"];
      node_element "conditionFlags" []
        [node_element "flag" [("name", "Quality")] [node_pcdata "High"]] ].

Definition visible_low : xml_node :=
  node_element "visible" [] [flagDependency "Quality" "Low"].

Definition plugins_node : xml_node := node_element "plugins" [] [plugin_2K].

Definition group_resolution : xml_node :=
  node_element "group" [("name", "Resolution")] [plugins_node].

Definition groups_node : xml_node :=
  node_element "optionalFileGroups" [] [group_resolution].

Definition step_textures : xml_node :=
  node_element "installStep" [("name", "Textures")] [visible_low; groups_node].

Definition steps_node : xml_node := node_element "installSteps" [] [step_textures].

(** A pattern on [Quality = High], declared before the install steps. *)
Definition pattern_high : xml_node :=
  node_element "pattern" []
    [ node_element "dependencies" [("operator", "And")]
        [flagDependency "Quality" "High"];
      node_element "files" [] [file_entry "folder" "hi" "textures"] ].

Definition config_node : xml_node :=
  node_element "config" []
    [ node_element "requiredInstallFiles" []
        [file_entry "file" "core.esp" "core.esp"];
      node_element "conditionalFileInstalls" []
        [node_element "patterns" [] [pattern_high]];
      steps_node ].

Definition moduleConfig : xml_document := [config_node].

(** The handle of [plugin_2K] inside [moduleConfig]. *)
Definition handle_2K : xml_handle :=
  XmlHandle plugin_2K
    [plugins_node; group_resolution; groups_node; step_textures; steps_node;
     config_node].

Definition select_2K : json :=
  json_object
    [("installFiles",
      json_array
        [json_object [("installStep", json_string "Textures");
                      ("group", json_string "Resolution");
                      ("plugin", json_string "2K")]])].

Definition select_nothing : json := json_object [].

Definition fomod_archive : list fs_entry :=
  [ fs_file "core.esp" (inl "No document element found");
    fs_file "2k.bsa" (inl "No document element found");
    fs_dir "hi" [];
    fs_dir "Fomod" [fs_file "ModuleConfig.xml" (inr moduleConfig)] ].

Definition call_with (tree : list fs_entry) (side : option (option json)) : Call :=
  {| archivePath := "mods/pack.7z";
     modPath := "mods/Pack";
     newTempDir := "tmp/fomod-a3f1-09bc";
     jPath := "mods/pack.json";
     extracted := Some tree;
     json_file := side |}.

(** A first call that selects the plugin, then one that selects nothing. *)
Definition first_call : Call := call_with fomod_archive (Some (Some select_2K)).
Definition second_call : Call := call_with fomod_archive (Some (Some select_nothing)).

(** A module-config archive without a side file. *)
Definition call_without_json : Call := call_with fomod_archive None.

Definition modX : fs_entry :=
  fs_dir "ModX" [ fs_file "a.txt" (inl "No document element found");
                  fs_dir "data" [];
                  fs_dir "meshes" [] ].

Definition modA : fs_entry := fs_dir "ModA" [fs_dir "textures" []].
Definition modB : fs_entry :=
  fs_dir "ModB" [fs_dir "scripts" []; fs_file "b.esp" (inl "No document element found")].
Definition modb : fs_entry := fs_dir "modb" [fs_dir "SKSE" []].

Definition readme : fs_entry := fs_file "readme.txt" (inl "No document element found").

Definition moduleName_is (nm : string) : option (option json) :=
  Some (Some (json_object [("moduleName", json_string nm)])).

End Sample.

(** ** Temporary names *)

(** The table [hexDigits] of [generateRandom], line 236. *)
Definition hexDigits : string := "0123456789abcdef".

(** [hexDigits[d]]; the character after the sixteen digits is the
    terminating NUL of the array. *)
Definition hex_digit (d : nat) : ascii := default "000"%char (String.get d hexDigits).

(** [generateRandom], lines 235-244.  [dist i] is the value the [i]-th call
    of [dist(gen)] returns; [drawn] counts the calls made so far. *)
Fixpoint generateRandom_from (dist : nat -> nat) (drawn : nat) (pattern : string)
    : string :=
  match pattern with
  | EmptyString => EmptyString
  | String ch rest =>
      if bool_decide (ch = "%"%char)
      then String (hex_digit (dist drawn)) (generateRandom_from dist (S drawn) rest)
      else String ch (generateRandom_from dist drawn rest)
  end.

Definition generateRandom (dist : nat -> nat) (pattern : string) : string :=
  generateRandom_from dist 0 pattern.

(** ** Vocabulary of the further properties *)

(** The text holds no double quote. *)
Fixpoint quote_free (s : string) : bool :=
  match s with
  | EmptyString => true
  | String c r => negb (bool_decide (c = "034"%char)) && quote_free r
  end.

(** Every entry of a tree, each directory before its contents. *)
Fixpoint subentries (e : fs_entry) : list fs_entry :=
  e ::
  match e with
  | fs_file _ _ => []
  | fs_dir _ es =>
      (fix walk (l : list fs_entry) : list fs_entry :=
         match l with
         | [] => []
         | e' :: l' => (subentries e' ++ walk l')%list
         end) es
  end.

Definition tree_entries (es : list fs_entry) : list fs_entry :=
  flat_map subentries es.

(** The test of line 423 on one entry. *)
Definition is_fomod_folder (e : fs_entry) : bool :=
  is_directory e
  && bool_decide (to_lower (entry_name e) = "fomod")
  && bool_decide (is_Some (lookup_entry (dir_entries e) "ModuleConfig.xml")).

(** The copy is the one a [file] or [folder] element asks for: its kind is
    the element's name, its source and destination are the bases joined
    with the element's attributes. *)
Definition from_entry (srcBase dstBase : path) (m : FileMapping) : Prop :=
  exists fileNode,
    (kind m = file /\ name fileNode = "file"
     \/ kind m = folder /\ name fileNode = "folder")
    /\ source m = srcBase // attribute_value fileNode "source"
    /\ destination m = dstBase // attribute_value fileNode "destination".

(** The exceptions the resolution passes raise themselves. *)
Definition query_error (e : exception) : Prop :=
  e = json_exception \/ e = xpath_exception.

(** The errors the module-config branch raises itself. *)
Definition config_error (c : Call) (e : exception) : Prop :=
  e = runtime_error ("Cannot open JSON config: " +:+ jPath c)
  \/ (exists description,
        e = runtime_error ("Cannot parse XML (" +:+ description +:+ ")"))
  \/ e = json_exception
  \/ e = xpath_exception.

(** The flag names a predicate asserts on. *)
Definition asserted_flags (predicate : xml_node) : list string :=
  (fun depNode => attribute_value depNode "flag") <$>
  children_named predicate "flagDependency".

(** * Properties *)

(** ** Running statements *)

Lemma run_bind {A B} (m : M A) (k : A -> M B) (s : state) :
  (m ≫= k) s =
  match m s with
  | (Done a, s') => k a s'
  | (Thrown e, s') => (Thrown e, s')
  end.
Proof. reflexivity. Qed.

Lemma run_bind_done {A B} (m : M A) (k : A -> M B) (s s' : state) (a : A) :
  m s = (Done a, s') -> (m ≫= k) s = k a s'.
Proof. intros Hm. rewrite run_bind, Hm. reflexivity. Qed.

Lemma run_bind_thrown {A B} (m : M A) (k : A -> M B) (s s' : state) e :
  m s = (Thrown e, s') -> (m ≫= k) s = (Thrown e, s').
Proof. intros Hm. rewrite run_bind, Hm. reflexivity. Qed.

Lemma state_eta (s : state) : State (pluginFlags s) (copies s) = s.
Proof. destruct s; reflexivity. Qed.

(** A statement that returns at once: unfold the return and tidy the state. *)
Ltac returns := cbv [mret M_ret ret]; rewrite ?app_nil_r, ?state_eta.

(** ** The dependency evaluator *)

Lemma flagMatches_run (flagName requiredValue : string) (s : state) :
  flagMatches flagName requiredValue s
  = (Done (bool_decide (pluginFlags s !! flagName = Some requiredValue)), s).
Proof.
  unfold flagMatches. rewrite run_bind. unfold flag_exists.
  destruct (pluginFlags s !! flagName) as [stored|] eqn:Hk.
  - rewrite bool_decide_eq_true_2 by eauto.
    rewrite run_bind. unfold flag_index. rewrite Hk.
    cbv [mret M_ret ret]. do 2 f_equal. apply bool_decide_ext. split; congruence.
  - rewrite bool_decide_eq_false_2 by (intros [? ?]; discriminate).
    rewrite bool_decide_eq_false_2 by discriminate. reflexivity.
Qed.

Lemma dependencies_loop_run (op : string) (deps : list xml_node) (r : bool) (s : state) :
  dependencies_loop op deps r s
  = (Done (if bool_decide (op = "And") then r && forallb (satisfied (pluginFlags s)) deps
           else if bool_decide (op = "Or") then r || existsb (satisfied (pluginFlags s)) deps
           else r), s).
Proof.
  revert r. induction deps as [|d deps IH]; intros r; simpl.
  - repeat case_bool_decide; destruct r; reflexivity.
  - rewrite run_bind, flagMatches_run, IH. fold (satisfied (pluginFlags s) d).
    repeat case_bool_decide; destruct r, (satisfied (pluginFlags s) d); reflexivity.
Qed.

Lemma areDependenciesMet_run (n : xml_node) (s : state) :
  areDependenciesMet n s = (Done (evaluate n (pluginFlags s)), s).
Proof.
  unfold areDependenciesMet, evaluate. rewrite dependencies_loop_run.
  repeat case_bool_decide; try reflexivity; congruence.
Qed.

(** ** Loops *)

Lemma for_each_cons {A} (x : A) (l : list A) (body : A -> M unit) (s : state) :
  for_each (x :: l) body s =
  match body x s with
  | (Done _, s') => for_each l body s'
  | (Thrown e, s') => (Thrown e, s')
  end.
Proof. reflexivity. Qed.

(** A loop whose body always completes and acts on the state as [step]. *)
Lemma for_each_total {A} (body : A -> M unit) (step : A -> state -> state)
    (l : list A) (s : state) :
  (forall x s, body x s = (Done tt, step x s)) ->
  for_each l body s = (Done tt, foldl (fun s x => step x s) s l).
Proof.
  intros Hbody. revert s. induction l as [|x l IH]; intros s.
  - reflexivity.
  - rewrite for_each_cons, Hbody. simpl. apply IH.
Qed.

Lemma foldl_emit {A} (f : A -> list FileMapping) (l : list A) (s : state) :
  foldl (fun s x => State (pluginFlags s) (copies s ++ f x)) s l
  = State (pluginFlags s) (copies s ++ flat_map f l).
Proof.
  revert s. induction l as [|x l IH]; intros s; simpl.
  - rewrite app_nil_r. symmetry. apply state_eta.
  - rewrite IH. simpl. rewrite <- app_assoc. reflexivity.
Qed.

Lemma install_entries_run (srcBase dstBase : path) (nodes : list xml_node) (s : state) :
  install_entries srcBase dstBase nodes s
  = (Done tt, State (pluginFlags s) (copies s ++ entry_mappings srcBase dstBase nodes)).
Proof.
  unfold install_entries, entry_mappings.
  rewrite (for_each_total _
    (fun fileNode s => State (pluginFlags s)
                             (copies s ++ entry_mapping srcBase dstBase fileNode))).
  - rewrite foldl_emit. reflexivity.
  - intros x s0. unfold entry_mapping, copyFile, copyFolder, emit.
    repeat case_bool_decide; try reflexivity.
    returns. reflexivity.
Qed.

(** ** Flag extraction *)

Lemma apply_writes_app (w1 w2 : list (string * string)) (flags : gmap string string) :
  apply_writes (w1 ++ w2) flags = apply_writes w2 (apply_writes w1 flags).
Proof. unfold apply_writes. apply foldl_app. Qed.

Lemma apply_writes_lookup (writes : list (string * string))
    (flags : gmap string string) (k : string) :
  apply_writes writes flags !! k
  = match written writes k with
    | Some v => Some v
    | None => flags !! k
    end.
Proof.
  revert flags. induction writes as [|[k' v'] writes IH]; intros flags; simpl.
  - reflexivity.
  - unfold apply_writes in *. simpl. rewrite IH.
    destruct (written writes k); [reflexivity|].
    case_bool_decide; simpl in *; subst.
    + apply lookup_insert_eq.
    + apply lookup_insert_ne. assumption.
Qed.

Lemma written_elem (writes : list (string * string)) (k v : string) :
  (k, v) ∈ writes -> is_Some (written writes k).
Proof.
  induction writes as [|kv writes IH]; intros Hin.
  - inversion Hin.
  - simpl. destruct (written writes k) eqn:Hw; [eauto|].
    apply elem_of_cons in Hin as [Heq|Hin].
    + subst kv. simpl. rewrite bool_decide_eq_true_2 by reflexivity. eauto.
    + apply IH in Hin. destruct Hin; discriminate.
Qed.

Lemma extractFlags_run (pluginNode : xml_node) (s : state) :
  extractFlags pluginNode s
  = (Done tt, State (apply_writes (flag_writes pluginNode) (pluginFlags s)) (copies s)).
Proof.
  unfold extractFlags, flag_writes.
  destruct (child pluginNode "conditionFlags") as [cf|].
  2:{ cbv [mret M_ret ret]. simpl. rewrite state_eta. reflexivity. }
  generalize (children_named cf "flag"). intros l. revert s.
  induction l as [|x l IH]; intros s.
  - simpl. returns. reflexivity.
  - rewrite for_each_cons. simpl List.filter.
    case_bool_decide as Hn; simpl negb; cbv iota.
    + cbv [mret M_ret ret]. apply IH.
    + unfold set_flag at 1. rewrite IH. simpl. reflexivity.
Qed.

(** ** One plugin, one pattern *)

Lemma step_hidden_run (h : xml_handle) (s : state) :
  step_hidden h s = (Done (hidden_at h (pluginFlags s)), s).
Proof.
  unfold step_hidden, hidden_at.
  destruct (enclosing_installStep h) as [st|]; [|reflexivity].
  destruct (child st "visible") as [v|]; [|reflexivity].
  rewrite run_bind, areDependenciesMet_run. reflexivity.
Qed.

Lemma process_plugin_run (srcBase dstBase : path) (h : xml_handle) (s : state) :
  let flags' := apply_writes (flag_writes (self h)) (pluginFlags s) in
  process_plugin srcBase dstBase h s
  = (Done tt,
     State flags'
           (copies s ++ if hidden_at h flags' then []
                        else plugin_mappings srcBase dstBase h)).
Proof.
  intros flags'. unfold process_plugin.
  rewrite run_bind, extractFlags_run, run_bind, step_hidden_run.
  cbn [pluginFlags copies]. fold flags'. unfold plugin_mappings.
  destruct (hidden_at h flags').
  - returns. reflexivity.
  - destruct (child (self h) "files") as [f|].
    + rewrite install_entries_run. reflexivity.
    + returns. reflexivity.
Qed.

Lemma process_pattern_run (srcBase dstBase : path) (pattern : xml_node) (s : state) :
  process_pattern srcBase dstBase pattern s
  = (Done tt,
     State (pluginFlags s)
           (copies s ++ pattern_mappings srcBase dstBase (pluginFlags s) pattern)).
Proof.
  unfold process_pattern, pattern_mappings. rewrite run_bind.
  destruct (child pattern "dependencies") as [d|].
  - rewrite run_bind, areDependenciesMet_run.
    destruct (evaluate d (pluginFlags s)); simpl.
    + apply install_entries_run.
    + returns. reflexivity.
  - simpl. apply install_entries_run.
Qed.

Lemma patterns_run (srcBase dstBase : path) (patterns : list xml_node) (s : state) :
  for_each patterns (process_pattern srcBase dstBase) s
  = (Done tt,
     State (pluginFlags s)
           (copies s ++ flat_map (pattern_mappings srcBase dstBase (pluginFlags s))
                                 patterns)).
Proof.
  revert s. induction patterns as [|p ps IH]; intros s.
  - simpl. returns. reflexivity.
  - rewrite for_each_cons, process_pattern_run, IH. simpl.
    rewrite <- app_assoc. reflexivity.
Qed.

(** The plugin loop: every node's assignments are applied, in order. *)
Lemma plugins_run (srcBase dstBase : path) (nodes : list xml_handle) (s : state) :
  exists extra,
    for_each nodes (process_plugin srcBase dstBase) s
    = (Done tt,
       State (apply_writes (flat_map (fun h => flag_writes (self h)) nodes)
                           (pluginFlags s))
             (copies s ++ extra)).
Proof.
  revert s. induction nodes as [|h nodes IH]; intros s.
  - exists []. simpl. returns. reflexivity.
  - rewrite for_each_cons, process_plugin_run.
    edestruct IH as [extra ->]. simpl.
    rewrite apply_writes_app, <- app_assoc. eauto.
Qed.

(** ** The nested-folder branch *)

Lemma to_lower_empty (s : string) : to_lower s = EmptyString <-> s = EmptyString.
Proof. destruct s; simpl; split; congruence. Qed.

Lemma load_moduleName_run (c : Call) (s : state) :
  json_file c <> Some None ->
  load_moduleName c s = (Done (from_option to_lower EmptyString (moduleName c)), s).
Proof.
  intros Hjson. unfold load_moduleName, moduleName, parseJson, contains.
  destruct (json_file c) as [[j|]|]; [| congruence | reflexivity].
  rewrite bool_decide_eq_true_2 by eauto. rewrite run_bind.
  cbv [mret M_ret ret].
  destruct (member j "moduleName") as [[]|]; reflexivity.
Qed.

Lemma copy_contents_run (c : Call) (dir : path) (es : list fs_entry) (s : state) :
  copy_contents c dir es s
  = (Done tt, State (pluginFlags s) (copies s ++ hoisted c dir es)).
Proof.
  unfold copy_contents, hoisted. revert s.
  induction es as [|e es IH]; intros s.
  - simpl. returns. reflexivity.
  - rewrite for_each_cons.
    destruct (is_directory e) eqn:He; unfold copyFolder, copyFile, emit;
      rewrite IH; simpl; rewrite He, <- app_assoc; reflexivity.
Qed.

Section EngineProperties.

Variable select_nodes : engine.

Lemma install_nested_eq (c : Call) (root : list fs_entry) (s : state) :
  extracted c = Some root ->
  find_fomod_in (newTempDir c // "archive") root = None ->
  install select_nodes c s = install_nested c (newTempDir c // "archive") root s.
Proof. intros He Hf. unfold install. rewrite He, Hf. reflexivity. Qed.

(** A module-config archive whose side file cannot be opened. *)
Lemma install_fomod_without_json (c : Call) (root : list fs_entry)
    (found : path * path * fs_entry) (s : state) :
  extracted c = Some root ->
  find_fomod_in (newTempDir c // "archive") root = Some found ->
  json_file c = None ->
  install select_nodes c s
  = (Thrown (runtime_error ("Cannot open JSON config: " +:+ jPath c)), s).
Proof.
  intros He Hf Hj. unfold install. rewrite He, Hf.
  destruct found as [[? srcBase] mc]. unfold install_fomod, parseJson.
  rewrite Hj. reflexivity.
Qed.

(** ** The selector pass *)

Lemma process_selector_run (doc : xml_document) (srcBase dstBase : path)
    (group : json) (s : state) :
  process_selector select_nodes doc srcBase dstBase group s
  = match selector_names group with
    | None => (Thrown json_exception, s)
    | Some (a, b, c) =>
        match select_nodes doc (plugin_xpath a b c) with
        | None => (Thrown xpath_exception, s)
        | Some nodes => for_each nodes (process_plugin srcBase dstBase) s
        end
    end.
Proof.
  unfold process_selector, selector_names, value, index_string, select.
  destruct (is_object group); [|reflexivity].
  rewrite run_bind.
  destruct (member group "installStep") as [[]|]; try reflexivity;
    (simpl; rewrite run_bind;
     destruct (member group "group") as [[]|]; try reflexivity;
     (simpl; rewrite run_bind;
      destruct (member group "plugin") as [[]|]; try reflexivity;
      (simpl; rewrite run_bind;
       match goal with
       | |- context [select_nodes doc ?q] => destruct (select_nodes doc q)
       end; reflexivity))).
Qed.

Lemma selectors_run (doc : xml_document) (srcBase dstBase : path)
    (groups : list json) (s : state) :
  exists r s' extra,
    for_each groups (process_selector select_nodes doc srcBase dstBase) s = (r, s')
    /\ copies s' = (copies s ++ extra)%list
    /\ match r with
       | Done _ =>
           pluginFlags s'
           = apply_writes (flat_map (selector_writes select_nodes doc) groups) (pluginFlags s)
       | Thrown _ => True
       end.
Proof.
  revert s. induction groups as [|g groups IH]; intros s.
  - exists (Done tt), s, []. rewrite app_nil_r. repeat split.
  - rewrite for_each_cons, process_selector_run.
    destruct (selector_names g) as [[[a b] c]|] eqn:Hn.
    2:{ exists (Thrown json_exception), s, []. rewrite app_nil_r. repeat split. }
    destruct (select_nodes doc (plugin_xpath a b c)) as [nodes|] eqn:Hs.
    2:{ exists (Thrown xpath_exception), s, []. rewrite app_nil_r. repeat split. }
    destruct (plugins_run srcBase dstBase nodes s) as [extra1 ->].
    edestruct IH as (r & s' & extra2 & -> & Hc & Hf).
    exists r, s', (extra1 ++ extra2)%list. split; [reflexivity|]. split.
    + rewrite Hc. simpl. rewrite app_assoc. reflexivity.
    + destruct r; [|exact I]. rewrite Hf.
      cbn [flat_map pluginFlags]. rewrite apply_writes_app.
      do 2 f_equal. unfold selector_writes. rewrite Hn, Hs. reflexivity.
Qed.

Lemma selected_plugins_writes (doc : xml_document) (groups : list json) :
  flat_map (selector_writes select_nodes doc) groups
  = flat_map (fun h => flag_writes (self h))
      (flat_map (fun group =>
                   match selector_names group with
                   | Some (a, b, c) =>
                       default [] (select_nodes doc (plugin_xpath a b c))
                   | None => []
                   end) groups).
Proof.
  induction groups as [|g groups IH]; [reflexivity|].
  simpl. rewrite flat_map_app, IH. reflexivity.
Qed.

Lemma selector_phase_run (doc : xml_document) (config : json)
    (srcBase dstBase : path) (s : state) :
  exists r s' extra,
    selector_phase select_nodes doc config srcBase dstBase s = (r, s')
    /\ copies s' = (copies s ++ extra)%list
    /\ match r with
       | Done _ =>
           pluginFlags s'
           = apply_writes
               (flat_map (fun h => flag_writes (self h))
                         (selected_plugins select_nodes doc config))
               (pluginFlags s)
       | Thrown _ => True
       end.
Proof.
  unfold selector_phase, selected_plugins.
  destruct (contains config "installFiles"
            && is_array (default json_null (member config "installFiles"))).
  - rewrite <- selected_plugins_writes. apply selectors_run.
  - exists (Done tt), s, []. rewrite app_nil_r. repeat split.
Qed.

Lemma required_phase_flags (doc : xml_document) (srcBase dstBase : path) (s : state) :
  pluginFlags (snd (required_phase select_nodes doc srcBase dstBase s)) = pluginFlags s.
Proof.
  unfold required_phase, select. rewrite run_bind.
  destruct (select_nodes doc required_xpath); [|reflexivity].
  cbv [mret M_ret ret]. rewrite install_entries_run. reflexivity.
Qed.

Lemma pattern_phase_run (doc : xml_document) (srcBase dstBase : path) (s : state) :
  pattern_phase select_nodes doc srcBase dstBase s
  = match select_nodes doc pattern_xpath with
    | Some patterns =>
        (Done tt,
         State (pluginFlags s)
               (copies s ++ flat_map (pattern_mappings srcBase dstBase (pluginFlags s))
                                     (self <$> patterns)))
    | None => (Thrown xpath_exception, s)
    end.
Proof.
  unfold pattern_phase, select. rewrite run_bind.
  destruct (select_nodes doc pattern_xpath); [|reflexivity].
  cbv [mret M_ret ret]. apply patterns_run.
Qed.

End EngineProperties.

(** * The dependency evaluator *)

(** C4: whatever the flag table, a predicate with no flag assertion is true
    when its operator is [And] or is not given, and false when its operator
    is [Or]. *)
Theorem empty_predicate (n : xml_node) (s : state) :
  children_named n "flagDependency" = [] ->
  (attribute n "operator" = None \/ attribute n "operator" = Some "And" ->
   areDependenciesMet n s = (Done true, s))
  /\ (attribute n "operator" = Some "Or" ->
      areDependenciesMet n s = (Done false, s)).
Proof.
  intros Hdeps. rewrite areDependenciesMet_run.
  unfold evaluate, attribute_as_string. rewrite Hdeps. split.
  - intros [-> | ->]; reflexivity.
  - intros ->. reflexivity.
Qed.

Lemma empty_predicate_witness :
  areDependenciesMet (node_element "visible" [] []) (State ∅ [])
    = (Done true, State ∅ [])
  /\ areDependenciesMet (node_element "dependencies" [("operator", "And")] [])
       (State ∅ []) = (Done true, State ∅ [])
  /\ areDependenciesMet (node_element "dependencies" [("operator", "Or")] [])
       (State ∅ []) = (Done false, State ∅ []).
Proof.
  split; [|split].
  - apply (empty_predicate (node_element "visible" [] [])); [reflexivity|].
    left. reflexivity.
  - apply (empty_predicate (node_element "dependencies" [("operator", "And")] []));
      [reflexivity|]. right. reflexivity.
  - apply (empty_predicate (node_element "dependencies" [("operator", "Or")] []));
      reflexivity.
Defined.

(** C5: an assertion on [flagName] with [requiredValue] is satisfied exactly
    when the table holds [flagName] with a value equal to [requiredValue];
    a flag that is not in the table satisfies no assertion.  The same
    boolean is the value of a predicate made of that single assertion. *)
Theorem assertion_satisfied (flagName requiredValue : string) (s : state) :
  exists b : bool,
    flagMatches flagName requiredValue s = (Done b, s)
    /\ (b = true <-> pluginFlags s !! flagName = Some requiredValue)
    /\ (pluginFlags s !! flagName = None -> b = false)
    /\ forall tag ats,
         ats ∈ [ []; [("operator", "And")]; [("operator", "Or")] ] ->
         areDependenciesMet
           (node_element tag ats
              [node_element "flagDependency"
                 [("flag", flagName); ("value", requiredValue)] []]) s
         = (Done b, s).
Proof.
  exists (bool_decide (pluginFlags s !! flagName = Some requiredValue)).
  split; [apply flagMatches_run|]. split; [apply bool_decide_eq_true|]. split.
  - intros Hnone. apply bool_decide_eq_false_2. rewrite Hnone. discriminate.
  - intros tag ats Hats. rewrite areDependenciesMet_run.
    repeat (apply elem_of_cons in Hats as [-> | Hats]);
      [| | | inversion Hats];
      unfold evaluate, satisfied; simpl;
      rewrite ?andb_true_r, ?orb_false_r; reflexivity.
Qed.

Lemma assertion_satisfied_witness :
  let s := State {[ "Quality" := "High" ]} [] in
  flagMatches "Quality" "High" s = (Done true, s)
  /\ flagMatches "Quality" "Low" s = (Done false, s)
  /\ flagMatches "Size" "High" s = (Done false, s).
Proof.
  intros s. split; [|split].
  - destruct (assertion_satisfied "Quality" "High" s) as (b & -> & [_ Hb] & _).
    rewrite Hb; reflexivity.
  - destruct (assertion_satisfied "Quality" "Low" s) as (b & -> & [Hb _] & _).
    destruct b; [|reflexivity]. specialize (Hb eq_refl). discriminate Hb.
  - destruct (assertion_satisfied "Size" "High" s) as (b & -> & _ & Hb & _).
    rewrite Hb; reflexivity.
Defined.

(** The comparison is exact: neither the flag name nor the value is matched
    up to letter case. *)
Example assertion_is_case_sensitive :
  let s := State {[ "Quality" := "High" ]} [] in
  fst (flagMatches "Quality" "High" s) = Done true
  /\ fst (flagMatches "Quality" "high" s) = Done false
  /\ fst (flagMatches "quality" "High" s) = Done false.
Proof. vm_compute. repeat split. Qed.

(** C10: a predicate whose operator attribute is present and is neither
    [And] nor [Or] is false for every table and every list of assertions. *)
Theorem unknown_operator (n : xml_node) (op : string) (s : state) :
  attribute n "operator" = Some op ->
  op <> "And" -> op <> "Or" ->
  areDependenciesMet n s = (Done false, s).
Proof.
  intros Hop Hand Hor. rewrite areDependenciesMet_run.
  unfold evaluate, attribute_as_string. rewrite Hop. simpl.
  rewrite !bool_decide_eq_false_2 by assumption. reflexivity.
Qed.

Lemma unknown_operator_witness :
  let n := node_element "dependencies" [("operator", "Xor")]
             [Sample.flagDependency "Quality" "High"] in
  let s := State {[ "Quality" := "High" ]} [] in
  satisfied (pluginFlags s) (Sample.flagDependency "Quality" "High") = true
  /\ areDependenciesMet n s = (Done false, s).
Proof.
  intros n s. split; [reflexivity|].
  apply (unknown_operator n "Xor" s); [reflexivity | discriminate | discriminate].
Defined.

(** C9: evaluating a predicate leaves the state as it was, and so do the
    passes that only evaluate and copy: the conditional patterns and the
    required files end with the flag table they started with. *)
Theorem evaluation_is_read_only (select_nodes : engine) :
  (forall n s, snd (areDependenciesMet n s) = s)
  /\ (forall doc srcBase dstBase s,
        pluginFlags (snd (pattern_phase select_nodes doc srcBase dstBase s))
        = pluginFlags s)
  /\ (forall doc srcBase dstBase s,
        pluginFlags (snd (required_phase select_nodes doc srcBase dstBase s))
        = pluginFlags s).
Proof.
  split; [|split].
  - intros n s. rewrite areDependenciesMet_run. reflexivity.
  - intros doc srcBase dstBase s. rewrite pattern_phase_run.
    destruct (select_nodes doc pattern_xpath); reflexivity.
  - intros. apply required_phase_flags.
Qed.

(** * The module-config branch *)

(** The walk of lines 562-564 stops at the first element named
    [installStep] on the way up from the plugin node. *)
Lemma enclosing_installStep_found (h : xml_handle) (above beyond : list xml_node)
    (installStepNode : xml_node) :
  self h :: ancestors h = (above ++ installStepNode :: beyond)%list ->
  Forall (fun n => name n <> "installStep") above ->
  name installStepNode = "installStep" ->
  enclosing_installStep h = Some installStepNode.
Proof.
  unfold enclosing_installStep. intros -> Habove Hname.
  induction Habove as [|n above Hn _ IH]; simpl.
  - rewrite bool_decide_eq_true_2 by exact Hname. reflexivity.
  - rewrite bool_decide_eq_false_2 by exact Hn. exact IH.
Qed.

(** C3: for a matched plugin node the condition flags are assigned first:
    afterwards every key the node assigns holds the value assigned last,
    every other key is as before, and no copy was issued.  The [visible]
    predicate of the enclosing step (the nearest element named
    [installStep] from the plugin node upwards) is judged on that table,
    and it gates only the copies: when it is not met, the plugin ends in
    exactly the state with the flags in, so none of its files is copied and
    its flags stay; when it is met, the plugin's files are appended. *)
Theorem flags_before_visibility (srcBase dstBase : path) (h : xml_handle) (s : state) :
  let applied := snd (extractFlags (self h) s) in
  copies applied = copies s
  /\ (forall k,
       pluginFlags applied !! k
       = match written (flag_writes (self h)) k with
         | Some v => Some v
         | None => pluginFlags s !! k
         end)
  /\ (exists hidden : bool,
       step_hidden h applied = (Done hidden, applied)
       /\ process_plugin srcBase dstBase h s
          = (Done tt,
             if hidden then applied
             else State (pluginFlags applied)
                        (copies applied ++ plugin_mappings srcBase dstBase h)))
  /\ (forall above installStepNode beyond visibleNode (met : bool),
        self h :: ancestors h = (above ++ installStepNode :: beyond)%list ->
        Forall (fun n => name n <> "installStep") above ->
        name installStepNode = "installStep" ->
        child installStepNode "visible" = Some visibleNode ->
        areDependenciesMet visibleNode applied = (Done met, applied) ->
        process_plugin srcBase dstBase h s
        = (Done tt,
           if met
           then State (pluginFlags applied)
                      (copies s ++ plugin_mappings srcBase dstBase h)
           else State (pluginFlags applied) (copies s))).
Proof.
  intros applied. subst applied. rewrite extractFlags_run. cbn [snd copies pluginFlags].
  split; [reflexivity|]. split; [apply apply_writes_lookup|]. split.
  - eexists. split; [apply step_hidden_run|].
    rewrite process_plugin_run. cbn [pluginFlags].
    destruct (hidden_at h _); [rewrite app_nil_r|]; reflexivity.
  - intros above st beyond v met Hpath Habove Hname Hvisible Hmet.
    rewrite areDependenciesMet_run in Hmet. cbn [pluginFlags] in Hmet.
    injection Hmet as Hmet.
    rewrite process_plugin_run. unfold hidden_at.
    rewrite (enclosing_installStep_found h above beyond st Hpath Habove Hname).
    rewrite Hvisible, Hmet.
    destruct met; simpl; [|rewrite app_nil_r]; reflexivity.
Qed.

Lemma flags_before_visibility_witness :
  areDependenciesMet Sample.visible_low (State {[ "Quality" := "High" ]} [])
    = (Done false, State {[ "Quality" := "High" ]} [])
  /\ child Sample.plugin_2K "files"
     = Some (node_element "files" [] [Sample.file_entry "file" "2k.bsa" "2k.bsa"])
  /\ process_plugin "src" "dst" Sample.handle_2K (State ∅ [])
     = (Done tt, State {[ "Quality" := "High" ]} []).
Proof.
  split; [reflexivity|]. split; [reflexivity|].
  destruct (flags_before_visibility "src" "dst" Sample.handle_2K (State ∅ []))
    as (_ & _ & _ & Hgate).
  apply (Hgate [Sample.plugin_2K; Sample.plugins_node; Sample.group_resolution;
                Sample.groups_node]
               Sample.step_textures [Sample.steps_node; Sample.config_node]
               Sample.visible_low false).
  - reflexivity.
  - repeat constructor; discriminate.
  - reflexivity.
  - reflexivity.
  - reflexivity.
Defined.

(** The plugin that sets [Quality] to [High] in a step visible only for
    [Quality = Low]: the flag is in the table, none of its files is copied. *)
Example quality_high_is_set_but_gated :
  process_plugin "src" "dst" Sample.handle_2K (State ∅ [])
  = (Done tt, State {[ "Quality" := "High" ]} []).
Proof. vm_compute. reflexivity. Qed.

(** The same plugin in a step without [visible]: its file is copied. *)
Example quality_high_ungated :
  process_plugin "src" "dst"
    (XmlHandle Sample.plugin_2K [Sample.plugins_node]) (State ∅ [])
  = (Done tt, State {[ "Quality" := "High" ]} [Mapping file "src/2k.bsa" "dst/2k.bsa"]).
Proof. vm_compute. reflexivity. Qed.

(** C2: the selector pass is over before the first pattern is looked at.
    When the passes before the patterns end in state [sB] with an
    exception, the run ends there and no pattern is evaluated.  When they
    complete, [sB] holds every assignment of every plugin node any selector
    addressed (a key holds the value assigned last), and every pattern is
    judged on that one table, wherever the pattern stands in the document. *)
Theorem patterns_follow_selectors (select_nodes : engine) (doc : xml_document)
    (config : json) (srcBase dstBase : path) (s0 : state) :
  let before_patterns :=
    (required_phase select_nodes doc srcBase dstBase;;
     selector_phase select_nodes doc config srcBase dstBase) s0 in
  let writes :=
    flat_map (fun h => flag_writes (self h))
             (selected_plugins select_nodes doc config) in
  match before_patterns with
  | (Thrown e, sB) =>
      resolve select_nodes doc config srcBase dstBase s0 = (Thrown e, sB)
  | (Done _, sB) =>
      pluginFlags sB = apply_writes writes (pluginFlags s0)
      /\ (forall k v, (k, v) ∈ writes ->
            is_Some (written writes k)
            /\ pluginFlags sB !! k = written writes k)
      /\ resolve select_nodes doc config srcBase dstBase s0
         = match select_nodes doc pattern_xpath with
           | Some patterns =>
               (Done tt,
                State (pluginFlags sB)
                      (copies sB
                       ++ flat_map (pattern_mappings srcBase dstBase (pluginFlags sB))
                                   (self <$> patterns)))
           | None => (Thrown xpath_exception, sB)
           end
  end.
Proof.
  intros before_patterns writes. subst before_patterns.
  unfold resolve. rewrite !run_bind.
  pose proof (required_phase_flags select_nodes doc srcBase dstBase s0) as HA.
  destruct (required_phase select_nodes doc srcBase dstBase s0) as [[[]|e] sA];
    [|reflexivity].
  cbn [snd] in HA. rewrite run_bind.
  destruct (selector_phase_run select_nodes doc config srcBase dstBase sA)
    as (r & sB & extra & -> & _ & Hflags).
  destruct r as [[]|e]; [|reflexivity].
  fold writes in Hflags. rewrite HA in Hflags.
  split; [exact Hflags|]. split.
  - intros k v Hin. pose proof (written_elem writes k v Hin) as Hsome.
    split; [exact Hsome|].
    rewrite Hflags, apply_writes_lookup. destruct Hsome as [w ->]. reflexivity.
  - apply pattern_phase_run.
Qed.

Lemma patterns_follow_selectors_witness :
  ("Quality", "High")
    ∈ flat_map (fun h => flag_writes (self h))
        (selected_plugins Reference.select_nodes Sample.moduleConfig Sample.select_2K)
  /\ pluginFlags
       (snd ((required_phase Reference.select_nodes Sample.moduleConfig "src" "dst";;
              selector_phase Reference.select_nodes Sample.moduleConfig
                             Sample.select_2K "src" "dst") (State ∅ [])))
     !! "Quality" = Some "High".
Proof.
  assert (Hin : ("Quality", "High")
                ∈ flat_map (fun h => flag_writes (self h))
                    (selected_plugins Reference.select_nodes Sample.moduleConfig
                                      Sample.select_2K)).
  { vm_compute. apply list_elem_of_here. }
  split; [exact Hin|].
  pose proof (patterns_follow_selectors Reference.select_nodes Sample.moduleConfig
                Sample.select_2K "src" "dst" (State ∅ [])) as H.
  cbv zeta in H.
  destruct ((required_phase Reference.select_nodes Sample.moduleConfig "src" "dst";;
             selector_phase Reference.select_nodes Sample.moduleConfig
                            Sample.select_2K "src" "dst") (State ∅ []))
    as [[[]|e] sB] eqn:Hrun.
  - destruct H as (_ & Hk & _). cbn [snd]. destruct (Hk _ _ Hin) as [_ ->]. reflexivity.
  - vm_compute in Hrun. discriminate Hrun.
Defined.

(** A pattern on [Quality = High] that stands before the install steps in
    the document, and a selector for the plugin that sets the flag: the
    pattern's folder is in the plan (and the gated plugin file is not). *)
Example earlier_pattern_sees_later_flag :
  resolve Reference.select_nodes Sample.moduleConfig Sample.select_2K "src" "dst"
          (State ∅ [])
  = (Done tt,
     State {[ "Quality" := "High" ]}
           [Mapping file "src/core.esp" "dst/core.esp";
            Mapping folder "src/hi" "dst/textures"]).
Proof. vm_compute. reflexivity. Qed.

(** C6 (the code departs from it): with a [fomod] folder present and no
    side file to open, [parseJson] throws before anything is resolved, so
    the call returns the error text and issues no copy. *)
Theorem module_config_without_json_fails (select_nodes : engine) :
  install select_nodes Sample.call_without_json (State ∅ [])
  = (Thrown (runtime_error "Cannot open JSON config: mods/pack.json"), State ∅ []).
Proof.
  apply (install_fomod_without_json select_nodes Sample.call_without_json
           Sample.fomod_archive
           ("tmp/fomod-a3f1-09bc/archive/Fomod", "tmp/fomod-a3f1-09bc/archive",
            fs_file "ModuleConfig.xml" (inr Sample.moduleConfig)));
    reflexivity.
Qed.

(** C1 (the code departs from it): a second call that selects nothing still
    copies the folder of the pattern on [Quality = High], because the flag
    the first call set is still in the table; the same call in a fresh
    process does not. *)
Theorem flags_survive_between_calls :
  let hi := Mapping folder "tmp/fomod-a3f1-09bc/archive/hi"
                           "tmp/fomod-a3f1-09bc/unfomod/textures" in
  let core := Mapping file "tmp/fomod-a3f1-09bc/archive/core.esp"
                           "tmp/fomod-a3f1-09bc/unfomod/core.esp" in
  let record := Mapping file "mods/pack.json" "tmp/fomod-a3f1-09bc/unfomod/mo2si.json" in
  let final := Mapping folder "tmp/fomod-a3f1-09bc/unfomod" "mods/Pack" in
  run_calls Reference.select_nodes [Sample.first_call; Sample.second_call] ∅
  = ([(Done "mods/Pack", [core; hi; record; final]);
      (Done "mods/Pack", [core; hi; record; final])],
     {[ "Quality" := "High" ]})
  /\ run_calls Reference.select_nodes [Sample.second_call] ∅
     = ([(Done "mods/Pack", [core; record; final])], ∅).
Proof. vm_compute. split; reflexivity. Qed.

(** * The nested-folder branch *)

(** C8: without a [fomod] folder and with a side file that is missing or
    well-formed, an archive with no candidate folder is copied as a whole,
    by one folder copy from the archive root to the mod directory; with
    exactly one candidate, each child of the candidate is copied to the mod
    directory under its own name, so the candidate's name is not part of
    the destination.  Both return the mod directory. *)
Theorem nested_selection (select_nodes : engine) (c : Call)
    (root : list fs_entry) (s : state) :
  extracted c = Some root ->
  find_fomod_in (newTempDir c // "archive") root = None ->
  json_file c <> Some None ->
  let archiveRoot := newTempDir c // "archive" in
  (List.filter is_main_mod_folder root = [] ->
   install select_nodes c s
   = (Done (modPath c),
      State (pluginFlags s) (copies s ++ [Mapping folder archiveRoot (modPath c)])))
  /\ (forall singleMod,
        List.filter is_main_mod_folder root = [singleMod] ->
        install select_nodes c s
        = (Done (modPath c),
           State (pluginFlags s)
                 (copies s
                  ++ ((fun entry =>
                         Mapping (if is_directory entry then folder else file)
                                 (archiveRoot // entry_name singleMod // entry_name entry)
                                 (modPath c // entry_name entry))
                      <$> dir_entries singleMod))%list)).
Proof.
  intros He Hf Hj archiveRoot.
  rewrite (install_nested_eq select_nodes c root s He Hf).
  unfold install_nested. rewrite run_bind, (load_moduleName_run c s Hj).
  fold archiveRoot. split.
  - intros ->. reflexivity.
  - intros singleMod ->. rewrite run_bind, copy_contents_run. reflexivity.
Qed.

Lemma nested_selection_witness :
  install Reference.select_nodes (Sample.call_with [Sample.readme] None) (State ∅ [])
    = (Done "mods/Pack",
       State ∅ [Mapping folder "tmp/fomod-a3f1-09bc/archive" "mods/Pack"])
  /\ install Reference.select_nodes
       (Sample.call_with [Sample.modX; Sample.readme] None) (State ∅ [])
     = (Done "mods/Pack",
        State ∅ [Mapping file "tmp/fomod-a3f1-09bc/archive/ModX/a.txt" "mods/Pack/a.txt";
                 Mapping folder "tmp/fomod-a3f1-09bc/archive/ModX/data" "mods/Pack/data";
                 Mapping folder "tmp/fomod-a3f1-09bc/archive/ModX/meshes"
                                "mods/Pack/meshes"]).
Proof.
  split.
  - apply (proj1 (nested_selection Reference.select_nodes
                    (Sample.call_with [Sample.readme] None) [Sample.readme]
                    (State ∅ []) eq_refl eq_refl ltac:(discriminate))).
    reflexivity.
  - apply (proj2 (nested_selection Reference.select_nodes
                    (Sample.call_with [Sample.modX; Sample.readme] None)
                    [Sample.modX; Sample.readme]
                    (State ∅ []) eq_refl eq_refl ltac:(discriminate))
                 Sample.modX).
    reflexivity.
Defined.

(** C7: without a [fomod] folder, with a side file that is missing or
    well-formed, and with two or more candidate folders: a missing or empty
    [moduleName] ends the call with the ambiguity error; otherwise the
    candidates whose lower-cased name equals the lower-cased [moduleName]
    decide: none gives the matched-nothing error, two or more give the
    matched-multiple error, and exactly one has its children copied to the
    mod directory, which is returned. *)
Theorem nested_disambiguation (select_nodes : engine) (c : Call)
    (root : list fs_entry) (s : state) :
  extracted c = Some root ->
  find_fomod_in (newTempDir c // "archive") root = None ->
  json_file c <> Some None ->
  (2 <= length (List.filter is_main_mod_folder root))%nat ->
  let archiveRoot := newTempDir c // "archive" in
  let candidates := List.filter is_main_mod_folder root in
  (moduleName c = None \/ moduleName c = Some EmptyString ->
   install select_nodes c s
   = (Thrown (runtime_error
        "Multiple mod folders detected but no moduleName in JSON to disambiguate."),
      s))
  /\ (forall key, moduleName c = Some key -> key <> EmptyString ->
      let matches :=
        List.filter (fun p => bool_decide (to_lower (entry_name p) = to_lower key))
                    candidates in
      (matches = [] ->
       install select_nodes c s
       = (Thrown (runtime_error
            ("moduleName '" +:+ to_lower key +:+ "' did not match any folder.")), s))
      /\ ((2 <= length matches)%nat ->
          install select_nodes c s
          = (Thrown (runtime_error
               ("moduleName '" +:+ to_lower key +:+ "' matched multiple folders.")), s))
      /\ (forall chosen, matches = [chosen] ->
          install select_nodes c s
          = (Done (modPath c),
             State (pluginFlags s)
                   (copies s ++ hoisted c (archiveRoot // entry_name chosen)
                                          (dir_entries chosen))))).
Proof.
  intros He Hf Hj Hlen archiveRoot candidates.
  rewrite (install_nested_eq select_nodes c root s He Hf).
  unfold install_nested. rewrite run_bind, (load_moduleName_run c s Hj).
  fold archiveRoot. subst candidates.
  destruct (List.filter is_main_mod_folder root) as [|c1 [|c2 rest]];
    [simpl in Hlen; lia | simpl in Hlen; lia |].
  clear Hlen. set (cands := c1 :: c2 :: rest).
  rewrite run_bind. unfold disambiguate. split.
  - intros [-> | ->]; reflexivity.
  - intros key -> Hkey. cbn [from_option].
    rewrite bool_decide_eq_false_2 by (rewrite to_lower_empty; exact Hkey).
    set (matches := List.filter _ cands). split; [|split].
    + intros ->. reflexivity.
    + intros Hm. destruct matches as [|m1 [|m2 ms]];
        [simpl in Hm; lia | simpl in Hm; lia | reflexivity].
    + intros chosen ->. rewrite copy_contents_run. reflexivity.
Qed.

Lemma nested_disambiguation_witness :
  install Reference.select_nodes
    (Sample.call_with [Sample.modA; Sample.modB; Sample.readme]
                      (Sample.moduleName_is "modb"))
    (State ∅ [])
  = (Done "mods/Pack",
     State ∅ [Mapping folder "tmp/fomod-a3f1-09bc/archive/ModB/scripts"
                             "mods/Pack/scripts";
              Mapping file "tmp/fomod-a3f1-09bc/archive/ModB/b.esp" "mods/Pack/b.esp"]).
Proof.
  destruct (nested_disambiguation Reference.select_nodes
              (Sample.call_with [Sample.modA; Sample.modB; Sample.readme]
                                (Sample.moduleName_is "modb"))
              [Sample.modA; Sample.modB; Sample.readme] (State ∅ [])
              eq_refl eq_refl ltac:(discriminate) ltac:(simpl; lia))
    as [_ Hkey].
  destruct (Hkey "modb" eq_refl ltac:(discriminate)) as (_ & _ & Hone).
  apply (Hone Sample.modB). reflexivity.
Defined.

(** The other three outcomes on the same two candidates, and with a third
    candidate whose name differs from [ModB] by case only. *)
Example nested_disambiguation_errors :
  let run tree side :=
    fst (install Reference.select_nodes (Sample.call_with tree side) (State ∅ [])) in
  run [Sample.modA; Sample.modB] None
    = Thrown (runtime_error
        "Multiple mod folders detected but no moduleName in JSON to disambiguate.")
  /\ run [Sample.modA; Sample.modB] (Sample.moduleName_is EmptyString)
     = Thrown (runtime_error
         "Multiple mod folders detected but no moduleName in JSON to disambiguate.")
  /\ run [Sample.modA; Sample.modB] (Sample.moduleName_is "ModC")
     = Thrown (runtime_error "moduleName 'modc' did not match any folder.")
  /\ run [Sample.modA; Sample.modB; Sample.modb] (Sample.moduleName_is "MODB")
     = Thrown (runtime_error "moduleName 'modb' matched multiple folders.").
Proof. vm_compute. repeat split. Qed.


(** * Further properties of the code *)

(** ** [generateRandom] *)

Lemma hex_digit_in_table (d : nat) :
  d <= 15 -> hex_digit d ∈ list_ascii_of_string hexDigits.
Proof.
  intros Hd. apply (bool_decide_unpack _).
  do 16 (destruct d as [|d]; [vm_compute; exact I|]). lia.
Qed.

Lemma generateRandom_from_length (dist : nat -> nat) (drawn : nat) (pattern : string) :
  String.length (generateRandom_from dist drawn pattern) = String.length pattern.
Proof.
  revert drawn. induction pattern as [|ch rest IH]; intros drawn; simpl.
  - reflexivity.
  - case_bool_decide; simpl; rewrite IH; reflexivity.
Qed.

Lemma generateRandom_from_get (dist : nat -> nat) (drawn : nat) (pattern : string)
    (i : nat) (c : ascii) :
  (forall n, dist n <= 15) ->
  String.get i pattern = Some c ->
  exists c',
    String.get i (generateRandom_from dist drawn pattern) = Some c'
    /\ (c <> "%"%char -> c' = c)
    /\ (c = "%"%char -> c' ∈ list_ascii_of_string hexDigits).
Proof.
  intros Hdist. revert drawn i.
  induction pattern as [|ch rest IH]; intros drawn i Hget; [discriminate|].
  simpl. destruct i as [|i]; simpl in Hget.
  - injection Hget as ->. case_bool_decide as Hc; simpl.
    + eexists. split; [reflexivity|]. split; [congruence|].
      intros _. apply hex_digit_in_table, Hdist.
    + exists c. split; [reflexivity|]. split; [reflexivity | congruence].
  - case_bool_decide; simpl; apply IH; assumption.
Qed.

(** X1: [generateRandom] keeps the length of the pattern and every
    character other than the percent sign in its place, and puts one of the
    sixteen lower-case hexadecimal digits at every percent sign, so that no
    percent sign is left in the result. *)
Theorem generateRandom_shape (dist : nat -> nat) (pattern : string) :
  (forall n, dist n <= 15) ->
  String.length (generateRandom dist pattern) = String.length pattern
  /\ (forall i c, String.get i pattern = Some c ->
        exists c',
          String.get i (generateRandom dist pattern) = Some c'
          /\ (c <> "%"%char -> c' = c)
          /\ (c = "%"%char -> c' ∈ list_ascii_of_string hexDigits))
  /\ (forall i, String.get i (generateRandom dist pattern) <> Some "%"%char).
Proof.
  intros Hdist. unfold generateRandom.
  split; [apply generateRandom_from_length|].
  split; [intros i c; apply generateRandom_from_get; assumption|].
  intros i Hi.
  destruct (String.get i pattern) as [c|] eqn:Hp.
  - destruct (generateRandom_from_get dist 0 pattern i c Hdist Hp)
      as (c' & Hc' & Hkeep & Hhex).
    rewrite Hi in Hc'. injection Hc' as <-.
    destruct (decide (c = "%"%char)) as [Hc|Hc].
    + specialize (Hhex Hc). subst c.
      apply (bool_decide_pack _) in Hhex. vm_compute in Hhex. exact Hhex.
    + apply Hc. symmetry. apply Hkeep, Hc.
  - assert (Hlen : String.length (generateRandom_from dist 0 pattern)
                   = String.length pattern) by apply generateRandom_from_length.
    revert Hi Hp Hlen. generalize (generateRandom_from dist 0 pattern).
    clear. revert i. induction pattern as [|a p IH]; intros i r Hi Hp Hlen.
    + destruct r; [destruct i; discriminate | discriminate].
    + destruct r as [|b r]; [discriminate|]. destruct i as [|i]; [discriminate|].
      simpl in *. apply (IH i r); [assumption | assumption | lia].
Qed.

Lemma generateRandom_shape_witness :
  (forall n, n mod 16 <= 15)
  /\ generateRandom (fun n => n mod 16) "fomod-%%%%-%%%%" = "fomod-0123-4567"
  /\ String.length (generateRandom (fun n => n mod 16) "fomod-%%%%-%%%%")
     = String.length "fomod-%%%%-%%%%".
Proof.
  assert (H : forall n, n mod 16 <= 15).
  { intros n. pose proof (Nat.mod_upper_bound n 16). lia. }
  split; [exact H|]. split; [reflexivity|].
  apply (generateRandom_shape (fun n => n mod 16) "fomod-%%%%-%%%%" H).
Defined.

(** ** [to_lower] *)

Lemma tolower_idempotent (c : ascii) : tolower (tolower c) = tolower c.
Proof. destruct c as [[] [] [] [] [] [] [] []]; reflexivity. Qed.

Lemma tolower_not_capital (c : ascii) :
  ~ (65 <= nat_of_ascii (tolower c) <= 90).
Proof. destruct c as [[] [] [] [] [] [] [] []]; vm_compute; lia. Qed.

Lemma tolower_other (c : ascii) :
  ~ (65 <= nat_of_ascii c <= 90) -> tolower c = c.
Proof.
  intros Hc. unfold tolower.
  destruct (65 <=? nat_of_ascii c)%nat eqn:H1; [|reflexivity].
  destruct (nat_of_ascii c <=? 90)%nat eqn:H2; [|reflexivity].
  apply Nat.leb_le in H1, H2. lia.
Qed.

(** X2: lower-casing twice is lower-casing once, so a [moduleName] and a
    folder name are compared the same way whether or not either was
    already lower-cased. *)
Theorem to_lower_idempotent (input : string) :
  to_lower (to_lower input) = to_lower input.
Proof.
  induction input as [|c rest IH]; simpl; [reflexivity|].
  rewrite tolower_idempotent, IH. reflexivity.
Qed.

(** X3: [to_lower] keeps the length, leaves every character that is not
    one of the capitals A to Z as it is, and leaves no capital A to Z in
    the result. *)
Theorem to_lower_only_capitals (input : string) :
  String.length (to_lower input) = String.length input
  /\ (forall i c, String.get i input = Some c ->
        String.get i (to_lower input) = Some (tolower c)
        /\ (~ (65 <= nat_of_ascii c <= 90) -> tolower c = c))
  /\ Forall (fun c => ~ (65 <= nat_of_ascii c <= 90))
            (list_ascii_of_string (to_lower input)).
Proof.
  split; [|split].
  - induction input as [|c rest IH]; simpl; congruence.
  - induction input as [|a rest IH]; intros i c Hget; [discriminate|].
    destruct i as [|i]; simpl in *.
    + injection Hget as ->. split; [reflexivity | apply tolower_other].
    + apply IH, Hget.
  - induction input as [|c rest IH]; simpl; constructor.
    + apply tolower_not_capital.
    + exact IH.
Qed.

(** Lower-casing distributes over concatenation. *)
Lemma to_lower_app (a b : string) :
  to_lower (a +:+ b) = to_lower a +:+ to_lower b.
Proof. induction a as [|c a IH]; simpl; [reflexivity | rewrite IH; reflexivity]. Qed.

(** ** More on the dependency evaluator *)

Lemma forallb_Forall_eq {A} (f : A -> bool) (l : list A) :
  forallb f l = true <-> Forall (fun x => f x = true) l.
Proof.
  induction l as [|x l IH]; simpl.
  - split; [constructor | reflexivity].
  - rewrite andb_true_iff, IH. split.
    + intros [? ?]. constructor; assumption.
    + intros H. inversion H; subst. split; assumption.
Qed.

Lemma existsb_Exists_eq {A} (f : A -> bool) (l : list A) :
  existsb f l = true <-> Exists (fun x => f x = true) l.
Proof.
  induction l as [|x l IH]; simpl.
  - split; [discriminate | intros H; inversion H].
  - rewrite orb_true_iff, IH. split.
    + intros [?|?]; [left | right]; assumption.
    + intros H. inversion H; subst; [left | right]; assumption.
Qed.

Lemma satisfied_true (flags : gmap string string) (d : xml_node) :
  satisfied flags d = true
  <-> flags !! attribute_value d "flag" = Some (attribute_value d "value").
Proof. unfold satisfied. apply bool_decide_eq_true. Qed.

(** X4: under [And] (also by default) the predicate is true exactly when
    every [flagDependency] child is satisfied by the table; under [Or],
    exactly when some child is. *)
Theorem dependencies_all_or_some (n : xml_node) (s : state) :
  let deps := children_named n "flagDependency" in
  let holds d :=
    pluginFlags s !! attribute_value d "flag" = Some (attribute_value d "value") in
  (attribute_as_string n "operator" "And" = "And" ->
   (areDependenciesMet n s = (Done true, s) <-> Forall holds deps))
  /\ (attribute_as_string n "operator" "And" = "Or" ->
      (areDependenciesMet n s = (Done true, s) <-> Exists holds deps)).
Proof.
  intros deps holds. rewrite areDependenciesMet_run. unfold evaluate.
  fold deps. split; intros ->; simpl.
  - split.
    + intros H. injection H as H. apply forallb_Forall_eq in H.
      eapply Forall_impl; [exact H|]. intros d. apply satisfied_true.
    + intros H. do 2 f_equal. apply forallb_Forall_eq.
      eapply Forall_impl; [exact H|]. intros d. apply satisfied_true.
  - split.
    + intros H. injection H as H. apply existsb_Exists_eq in H.
      eapply Exists_impl; [exact H|]. intros d. apply satisfied_true.
    + intros H. do 2 f_equal. apply existsb_Exists_eq.
      eapply Exists_impl; [exact H|]. intros d. apply satisfied_true.
Qed.

Lemma filter_filter_same {A} (f : A -> bool) (l : list A) :
  List.filter f (List.filter f l) = List.filter f l.
Proof.
  induction l as [|x l IH]; simpl; [reflexivity|].
  destruct (f x) eqn:Hx; simpl; rewrite ?Hx, IH; reflexivity.
Qed.

(** X5: only the [flagDependency] children of a predicate count: any other
    child (a file or game dependency, a nested [dependencies] element,
    text) can be removed without changing the result. *)
Theorem other_children_ignored (tag : string) (ats : list (string * string))
    (kids : list xml_node) (s : state) :
  areDependenciesMet (node_element tag ats kids) s
  = areDependenciesMet
      (node_element tag ats (List.filter (has_name "flagDependency") kids)) s.
Proof.
  rewrite !areDependenciesMet_run. unfold evaluate, children_named. simpl.
  rewrite filter_filter_same. reflexivity.
Qed.

(** A predicate made only of a nested [dependencies] element and a file
    dependency is an empty conjunction. *)
Example nested_dependencies_not_evaluated :
  fst (areDependenciesMet
         (node_element "dependencies" [("operator", "And")]
            [ node_element "dependencies" [("operator", "Or")] [];
              node_element "fileDependency" [("file", "a.esp"); ("state", "Active")] [] ])
         (State ∅ []))
  = Done true.
Proof. vm_compute. reflexivity. Qed.

Lemma filter_Permutation_std {A} (f : A -> bool) (l l' : list A) :
  l ≡ₚ l' -> List.filter f l ≡ₚ List.filter f l'.
Proof.
  induction 1 as [|x l l' _ IH|x y l|l l' l'' _ IH1 _ IH2]; simpl.
  - reflexivity.
  - destruct (f x); [constructor|]; exact IH.
  - destruct (f x), (f y); try reflexivity. apply perm_swap.
  - etransitivity; eassumption.
Qed.

Lemma forallb_Permutation {A} (f : A -> bool) (l l' : list A) :
  l ≡ₚ l' -> forallb f l = forallb f l'.
Proof.
  induction 1 as [|x l l' _ IH|x y l|l l' l'' _ IH1 _ IH2]; simpl.
  - reflexivity.
  - rewrite IH. reflexivity.
  - destruct (f x), (f y); reflexivity.
  - congruence.
Qed.

Lemma existsb_Permutation {A} (f : A -> bool) (l l' : list A) :
  l ≡ₚ l' -> existsb f l = existsb f l'.
Proof.
  induction 1 as [|x l l' _ IH|x y l|l l' l'' _ IH1 _ IH2]; simpl.
  - reflexivity.
  - rewrite IH. reflexivity.
  - destruct (f x), (f y); reflexivity.
  - congruence.
Qed.

(** X6: the order of the children of a predicate does not matter. *)
Theorem dependencies_order_irrelevant (tag : string) (ats : list (string * string))
    (kids kids' : list xml_node) (s : state) :
  kids ≡ₚ kids' ->
  areDependenciesMet (node_element tag ats kids) s
  = areDependenciesMet (node_element tag ats kids') s.
Proof.
  intros Hperm. rewrite !areDependenciesMet_run. unfold evaluate, children_named.
  simpl. apply (filter_Permutation_std (has_name "flagDependency")) in Hperm.
  rewrite (forallb_Permutation _ _ _ Hperm), (existsb_Permutation _ _ _ Hperm).
  reflexivity.
Qed.

Lemma dependencies_order_irrelevant_witness :
  let a := Sample.flagDependency "Quality" "High" in
  let b := Sample.flagDependency "Size" "Big" in
  let s := State {[ "Quality" := "High" ]} [] in
  [a; b] ≡ₚ [b; a]
  /\ areDependenciesMet (node_element "dependencies" [("operator", "Or")] [a; b]) s
     = areDependenciesMet (node_element "dependencies" [("operator", "Or")] [b; a]) s.
Proof.
  intros a b s. split; [apply perm_swap|].
  apply (dependencies_order_irrelevant "dependencies" [("operator", "Or")]
           [a; b] [b; a] s).
  apply perm_swap.
Defined.

(** X7: the result depends on the table only through the flags the
    predicate names: two tables that agree on them give the same result. *)
Theorem dependencies_local (n : xml_node) (s s' : state) :
  (forall k, k ∈ asserted_flags n -> pluginFlags s !! k = pluginFlags s' !! k) ->
  fst (areDependenciesMet n s) = fst (areDependenciesMet n s').
Proof.
  intros Hagree. rewrite !areDependenciesMet_run. cbn [fst]. f_equal.
  unfold evaluate, asserted_flags in *.
  induction (children_named n "flagDependency") as [|d deps IH]; [reflexivity|].
  assert (Hd : satisfied (pluginFlags s) d = satisfied (pluginFlags s') d).
  { unfold satisfied. rewrite (Hagree (attribute_value d "flag")); [reflexivity|].
    rewrite fmap_cons. apply list_elem_of_here. }
  assert (Hrest : forall k,
            k ∈ (fun depNode => attribute_value depNode "flag") <$> deps ->
            pluginFlags s !! k = pluginFlags s' !! k).
  { intros k Hk. apply Hagree. rewrite fmap_cons. apply list_elem_of_further, Hk. }
  specialize (IH Hrest). simpl. rewrite Hd.
  repeat case_bool_decide; simpl in IH |- *; congruence.
Qed.

Lemma dependencies_local_witness :
  let n := node_element "visible" [] [Sample.flagDependency "Quality" "Low"] in
  let s := State {[ "Quality" := "Low" ]} [] in
  let s' := State (<[ "Size" := "Big" ]> {[ "Quality" := "Low" ]})
                  [Mapping file "a" "b"] in
  fst (areDependenciesMet n s) = fst (areDependenciesMet n s').
Proof.
  intros n s s'. apply (dependencies_local n s s').
  intros k Hk. apply list_elem_of_singleton in Hk. subst k. reflexivity.
Defined.

(** ** More on [extractFlags] *)

Lemma written_none (writes : list (string * string)) (k : string) :
  written writes k = None <-> k ∉ (fst <$> writes).
Proof.
  induction writes as [|[k' v'] writes IH]; simpl.
  - split; [intros _ H; inversion H | reflexivity].
  - rewrite not_elem_of_cons. destruct (written writes k) eqn:Hw.
    + split; [discriminate|]. intros [_ Hin]. apply IH in Hin. discriminate.
    + case_bool_decide as Hk; simpl in Hk.
      * split; [discriminate|]. intros [Hne _]. congruence.
      * split; [|reflexivity]. intros _. split; [congruence | apply IH; reflexivity].
Qed.

Lemma apply_writes_twice (writes : list (string * string)) (flags : gmap string string) :
  apply_writes writes (apply_writes writes flags) = apply_writes writes flags.
Proof.
  apply map_eq. intros k. rewrite !apply_writes_lookup.
  destruct (written writes k); reflexivity.
Qed.

(** X8: extracting the flags of the same plugin node twice in a row leaves
    the state that extracting them once leaves. *)
Theorem extractFlags_idempotent (pluginNode : xml_node) (s : state) :
  (extractFlags pluginNode;; extractFlags pluginNode) s = extractFlags pluginNode s.
Proof.
  rewrite run_bind, !extractFlags_run. cbn [pluginFlags copies].
  rewrite apply_writes_twice. reflexivity.
Qed.

(** X9: [extractFlags] never throws, issues no copy, removes no key, and
    leaves every key that is not the non-empty name of one of the plugin's
    [flag] elements with the value it had. *)
Theorem extractFlags_frame (pluginNode : xml_node) (s : state) :
  exists s',
    extractFlags pluginNode s = (Done tt, s')
    /\ copies s' = copies s
    /\ (forall k, is_Some (pluginFlags s !! k) -> is_Some (pluginFlags s' !! k))
    /\ (forall k, k ∉ (fst <$> flag_writes pluginNode) ->
          pluginFlags s' !! k = pluginFlags s !! k).
Proof.
  eexists. split; [apply extractFlags_run|]. cbn [pluginFlags copies].
  split; [reflexivity|]. split.
  - intros k Hk. rewrite apply_writes_lookup.
    destruct (written (flag_writes pluginNode) k); [eauto | exact Hk].
  - intros k Hk. rewrite apply_writes_lookup.
    apply written_none in Hk. rewrite Hk. reflexivity.
Qed.

(** X10: a plugin node without a [conditionFlags] child, or whose [flag]
    elements all lack a name (or have an empty one), changes nothing. *)
Theorem extractFlags_unnamed (pluginNode : xml_node) (s : state) :
  Forall (fun flagNode => attribute_value flagNode "name" = EmptyString)
         (from_option (fun cf => children_named cf "flag") []
                      (child pluginNode "conditionFlags")) ->
  extractFlags pluginNode s = (Done tt, s).
Proof.
  intros Hall. rewrite extractFlags_run. unfold flag_writes.
  destruct (child pluginNode "conditionFlags") as [cf|]; simpl in Hall.
  - replace (List.filter _ (children_named cf "flag")) with (@nil xml_node).
    + simpl. rewrite state_eta. reflexivity.
    + induction Hall as [|x l Hx _ IH]; simpl; [reflexivity|].
      rewrite Hx. simpl. exact IH.
  - simpl. rewrite state_eta. reflexivity.
Qed.

Lemma extractFlags_unnamed_witness :
  let s := State {[ "Quality" := "High" ]} [] in
  extractFlags (node_element "plugin" [("name", "2K")] []) s = (Done tt, s)
  /\ extractFlags
       (node_element "plugin" [("name", "2K")]
          [node_element "conditionFlags" []
             [node_element "flag" [] [node_pcdata "On"]]]) s = (Done tt, s).
Proof.
  intros s. split.
  - apply (extractFlags_unnamed (node_element "plugin" [("name", "2K")] []) s).
    simpl. constructor.
  - apply (extractFlags_unnamed
             (node_element "plugin" [("name", "2K")]
                [node_element "conditionFlags" []
                   [node_element "flag" [] [node_pcdata "On"]]]) s).
    simpl. constructor; [reflexivity | constructor].
Defined.

(** ** The layout classifier *)

Lemma lookup_entry_name (es : list fs_entry) (nm : string) (e : fs_entry) :
  lookup_entry es nm = Some e -> entry_name e = nm.
Proof.
  unfold lookup_entry. intros H. apply find_some in H as [_ H].
  apply bool_decide_eq_true in H. exact H.
Qed.

(** Induction over a tree of entries, with the hypothesis for every entry
    of a directory. *)
Lemma fs_entry_tree_ind (P : fs_entry -> Prop) :
  (forall nm ld, P (fs_file nm ld)) ->
  (forall nm es, Forall P es -> P (fs_dir nm es)) ->
  forall e, P e.
Proof.
  intros Hfile Hdir. fix ind 1. intros [nm ld | nm es].
  - apply Hfile.
  - apply Hdir. induction es as [|x l IHl].
    + apply List.Forall_nil.
    + apply List.Forall_cons; [apply ind | exact IHl].
Qed.

(** What the scan returns for the tree below one entry, in terms of the
    entries of that tree. *)
Lemma find_fomod_spec (e : fs_entry) :
  forall dir,
    match find_fomod dir e with
    | Some (fomodFolder, srcBase, mc) =>
        exists nm es,
          fs_dir nm es ∈ subentries e
          /\ is_fomod_folder (fs_dir nm es) = true
          /\ fomodFolder = srcBase // nm
          /\ lookup_entry es "ModuleConfig.xml" = Some mc
    | None => Forall (fun x => is_fomod_folder x = false) (subentries e)
    end.
Proof.
  induction e as [nm ld | nm es IH] using fs_entry_tree_ind.
  - intros dir. simpl. constructor; [reflexivity | constructor].
  - intros dir. cbn [find_fomod].
    set (scan := fix scan (l : list fs_entry) : option (path * path * fs_entry) :=
           match l with
           | [] => None
           | e' :: l' =>
               match find_fomod (dir // nm) e' with
               | Some r => Some r
               | None => scan l'
               end
           end).
    cbn [subentries].
    set (walk := fix walk (l : list fs_entry) : list fs_entry :=
           match l with
           | [] => []
           | e' :: l' => (subentries e' ++ walk l')%list
           end).
    assert (Hscan :
      match scan es with
      | Some (fomodFolder, srcBase, mc) =>
          exists nm' es',
            fs_dir nm' es' ∈ walk es
            /\ is_fomod_folder (fs_dir nm' es') = true
            /\ fomodFolder = srcBase // nm'
            /\ lookup_entry es' "ModuleConfig.xml" = Some mc
      | None => Forall (fun x => is_fomod_folder x = false) (walk es)
      end).
    { clear -IH. induction IH as [|x l Hx _ IHl]; simpl; [constructor|].
      specialize (Hx (dir // nm)).
      destruct (find_fomod (dir // nm) x) as [[[f b] mc]|].
      - destruct Hx as (nm' & es' & Hin & Hrest).
        exists nm', es'. split; [|exact Hrest].
        apply elem_of_app. left. exact Hin.
      - destruct (scan l) as [[[f b] mc]|].
        + destruct IHl as (nm' & es' & Hin & Hrest).
          exists nm', es'. split; [|exact Hrest].
          apply elem_of_app. right. exact Hin.
        + apply Forall_app. split; assumption. }
    destruct (bool_decide (to_lower nm = "fomod")) eqn:Hnm.
    + destruct (lookup_entry es "ModuleConfig.xml") as [mc|] eqn:Hmc.
      * exists nm, es. split; [apply list_elem_of_here|].
        split; [|split; [reflexivity | exact Hmc]].
        unfold is_fomod_folder. cbn [is_directory entry_name dir_entries].
        rewrite Hnm, Hmc. rewrite bool_decide_eq_true_2 by eauto. reflexivity.
      * destruct (scan es) as [[[f b] mc]|].
        -- destruct Hscan as (nm' & es' & Hin & Hrest).
           exists nm', es'. split; [|exact Hrest].
           apply list_elem_of_further. exact Hin.
        -- constructor; [|exact Hscan].
           unfold is_fomod_folder. cbn [is_directory entry_name dir_entries].
           rewrite Hnm, Hmc.
           rewrite bool_decide_eq_false_2 by (intros [? ?]; discriminate).
           reflexivity.
    + destruct (scan es) as [[[f b] mc]|].
      * destruct Hscan as (nm' & es' & Hin & Hrest).
        exists nm', es'. split; [|exact Hrest].
        apply list_elem_of_further. exact Hin.
      * constructor; [|exact Hscan].
        unfold is_fomod_folder. cbn [is_directory entry_name dir_entries].
        rewrite Hnm. reflexivity.
Qed.

Lemma find_fomod_in_spec (dir : path) (es : list fs_entry) :
  match find_fomod_in dir es with
  | Some (fomodFolder, srcBase, mc) =>
      exists nm es',
        fs_dir nm es' ∈ tree_entries es
        /\ is_fomod_folder (fs_dir nm es') = true
        /\ fomodFolder = srcBase // nm
        /\ lookup_entry es' "ModuleConfig.xml" = Some mc
  | None => Forall (fun x => is_fomod_folder x = false) (tree_entries es)
  end.
Proof.
  unfold tree_entries. induction es as [|e es IH]; simpl; [constructor|].
  pose proof (find_fomod_spec e dir) as He.
  destruct (find_fomod dir e) as [[[f b] mc]|].
  - destruct He as (nm & es' & Hin & Hrest). exists nm, es'.
    split; [|exact Hrest]. apply elem_of_app. left. exact Hin.
  - destruct (find_fomod_in dir es) as [[[f b] mc]|].
    + destruct IH as (nm & es' & Hin & Hrest). exists nm, es'.
      split; [|exact Hrest]. apply elem_of_app. right. exact Hin.
    + apply Forall_app. split; assumption.
Qed.

(** X11: what the scan finds is a directory of the archive whose name is
    [fomod] up to letter case and which holds an entry [ModuleConfig.xml];
    the folder path returned is that name under the returned base, and the
    entry returned is the [ModuleConfig.xml] of that directory. *)
Theorem find_fomod_sound (dir : path) (es : list fs_entry)
    (fomodFolder srcBase : path) (mc : fs_entry) :
  find_fomod_in dir es = Some (fomodFolder, srcBase, mc) ->
  exists nm es',
    fs_dir nm es' ∈ tree_entries es
    /\ to_lower nm = "fomod"
    /\ fomodFolder = srcBase // nm
    /\ lookup_entry es' "ModuleConfig.xml" = Some mc
    /\ entry_name mc = "ModuleConfig.xml".
Proof.
  intros Hfind. pose proof (find_fomod_in_spec dir es) as H. rewrite Hfind in H.
  destruct H as (nm & es' & Hin & Hfomod & Hpath & Hmc).
  exists nm, es'. repeat split; try assumption.
  - unfold is_fomod_folder in Hfomod. cbn [is_directory entry_name] in Hfomod.
    apply andb_true_iff in Hfomod as [Hnm _]. simpl in Hnm.
    apply bool_decide_eq_true in Hnm. exact Hnm.
  - eapply lookup_entry_name. exact Hmc.
Qed.

Lemma find_fomod_sound_witness :
  find_fomod_in "tmp/archive" Sample.fomod_archive
    = Some ("tmp/archive/Fomod", "tmp/archive",
            fs_file "ModuleConfig.xml" (inr Sample.moduleConfig))
  /\ exists nm es',
       fs_dir nm es' ∈ tree_entries Sample.fomod_archive
       /\ to_lower nm = "fomod"
       /\ "tmp/archive/Fomod" = "tmp/archive" // nm
       /\ lookup_entry es' "ModuleConfig.xml"
          = Some (fs_file "ModuleConfig.xml" (inr Sample.moduleConfig))
       /\ entry_name (fs_file "ModuleConfig.xml" (inr Sample.moduleConfig))
          = "ModuleConfig.xml".
Proof.
  split; [reflexivity|].
  apply (find_fomod_sound "tmp/archive" Sample.fomod_archive
           "tmp/archive/Fomod" "tmp/archive"
           (fs_file "ModuleConfig.xml" (inr Sample.moduleConfig))).
  reflexivity.
Defined.

(** X12: the scan finds nothing exactly when no entry anywhere in the
    archive is a directory named [fomod] up to letter case that holds an
    entry [ModuleConfig.xml]; other contents of the archive play no part. *)
Theorem find_fomod_complete (dir : path) (es : list fs_entry) :
  find_fomod_in dir es = None
  <-> Forall (fun e => is_fomod_folder e = false) (tree_entries es).
Proof.
  pose proof (find_fomod_in_spec dir es) as H.
  destruct (find_fomod_in dir es) as [[[f b] mc]|].
  - split; [discriminate|]. intros Hall.
    destruct H as (nm & es' & Hin & Hfomod & _).
    rewrite Forall_forall in Hall. apply Hall in Hin. congruence.
  - split; [intros _; exact H | reflexivity].
Qed.

(** ** The query text *)

Lemma string_app_assoc (a b c : string) : (a +:+ b) +:+ c = a +:+ (b +:+ c).
Proof.
  induction a as [|x a IH]; [reflexivity|].
  change (String x ((a +:+ b) +:+ c) = String x (a +:+ (b +:+ c))).
  f_equal. exact IH.
Qed.

Lemma string_app_length (a b : string) :
  String.length (a +:+ b) = String.length a + String.length b.
Proof.
  induction a as [|x a IH]; [reflexivity|].
  change (S (String.length (a +:+ b)) = S (String.length a + String.length b)).
  f_equal. exact IH.
Qed.

Lemma strip_prefix_app (p s : string) :
  Reference.strip_prefix p (p +:+ s) = Some s.
Proof.
  induction p as [|x p IH]; [destruct s; reflexivity|].
  change (Reference.strip_prefix (String x p) (String x (p +:+ s)) = Some s).
  simpl. rewrite bool_decide_eq_true_2 by reflexivity. exact IH.
Qed.

Lemma until_quote_app (a r : string) :
  quote_free a = true ->
  Reference.until_quote (a +:+ dquote +:+ r) = Some (a, r).
Proof.
  induction a as [|x a IH]; intros Hq.
  - reflexivity.
  - simpl in Hq. apply andb_true_iff in Hq as [Hx Ha].
    apply negb_true_iff in Hx.
    change (Reference.until_quote (String x (a +:+ dquote +:+ r))
            = Some (String x a, r)).
    simpl. rewrite Hx, (IH Ha). reflexivity.
Qed.

(** For names without a double quote, the query text reads back as the
    three names it was built from. *)
Lemma parse_plugin_xpath_built (a b c : string) :
  quote_free a = true -> quote_free b = true -> quote_free c = true ->
  Reference.parse_plugin_xpath (plugin_xpath a b c) = Some (a, b, c).
Proof.
  intros Ha Hb Hc. unfold Reference.parse_plugin_xpath.
  set (p1 := "(//installStep[normalize-space(@name)=" +:+ dquote).
  set (p2 := "]//optionalFileGroups//group|"
             +:+ "//optionalFileGroups//group[normalize-space(@name)=" +:+ dquote).
  set (p3 := "])//plugins/plugin[normalize-space(@name)=" +:+ dquote).
  change (plugin_xpath a b c)
    with (p1 +:+ (a +:+ dquote +:+ (p2 +:+ (b +:+ dquote
            +:+ (p3 +:+ (c +:+ dquote +:+ "]")))))).
  rewrite (strip_prefix_app p1). cbn [mbind option_bind].
  rewrite (until_quote_app a _ Ha). cbn [mbind option_bind].
  rewrite (strip_prefix_app p2). cbn [mbind option_bind].
  rewrite (until_quote_app b _ Hb). cbn [mbind option_bind].
  rewrite (strip_prefix_app p3). cbn [mbind option_bind].
  rewrite (until_quote_app c _ Hc). cbn [mbind option_bind].
  reflexivity.
Qed.

(** X13: for selector names that hold no double quote, the query text
    determines the three names: different selectors never yield the same
    query. *)
Theorem plugin_xpath_injective (a b c a' b' c' : string) :
  quote_free a = true -> quote_free b = true -> quote_free c = true ->
  quote_free a' = true -> quote_free b' = true -> quote_free c' = true ->
  plugin_xpath a b c = plugin_xpath a' b' c' ->
  a = a' /\ b = b' /\ c = c'.
Proof.
  intros Ha Hb Hc Ha' Hb' Hc' Heq.
  pose proof (parse_plugin_xpath_built a b c Ha Hb Hc) as H.
  rewrite Heq, (parse_plugin_xpath_built a' b' c' Ha' Hb' Hc') in H.
  injection H as -> -> ->. repeat split.
Qed.

Lemma plugin_xpath_injective_witness :
  plugin_xpath "Textures" "Resolution" "2K" = plugin_xpath "Textures" "Resolution" "2K"
  /\ "Textures" = "Textures" /\ "Resolution" = "Resolution" /\ "2K" = "2K".
Proof.
  split; [reflexivity|].
  apply (plugin_xpath_injective "Textures" "Resolution" "2K"
           "Textures" "Resolution" "2K"); reflexivity.
Defined.

(** X14: the names are spliced into the query text as they are.  With
    double quotes in them the text no longer determines the names: moving
    the middle part of the query from the step name to the group name gives
    the same text for a different selector. *)
Theorem plugin_xpath_collision (x y z c : string) :
  let middle :=
    dquote +:+ "]//optionalFileGroups//group|"
    +:+ "//optionalFileGroups//group[normalize-space(@name)=" +:+ dquote in
  plugin_xpath (x +:+ middle +:+ y) z c = plugin_xpath x (y +:+ middle +:+ z) c
  /\ x +:+ middle +:+ y <> x.
Proof.
  intros middle. split.
  - unfold plugin_xpath.
    change (dquote +:+ "]//optionalFileGroups//group|"
            +:+ "//optionalFileGroups//group[normalize-space(@name)="
            +:+ dquote +:+ ?t)
      with (middle +:+ t).
    rewrite !string_app_assoc. reflexivity.
  - intros Heq. apply (f_equal String.length) in Heq.
    rewrite !string_app_length in Heq.
    assert (1 <= String.length middle) by (vm_compute; lia). lia.
Qed.

(** ** What a run can change *)

Lemma entry_mappings_from_entry (srcBase dstBase : path) (nodes : list xml_node) :
  Forall (from_entry srcBase dstBase) (entry_mappings srcBase dstBase nodes).
Proof.
  unfold entry_mappings. induction nodes as [|n nodes IH]; simpl; [constructor|].
  apply Forall_app. split; [|exact IH].
  unfold entry_mapping. case_bool_decide as Hfile.
  - repeat constructor. exists n. split; [left; split; [reflexivity | exact Hfile]|].
    split; reflexivity.
  - case_bool_decide as Hfolder; [|constructor].
    repeat constructor. exists n. split; [right; split; [reflexivity | exact Hfolder]|].
    split; reflexivity.
Qed.

Lemma plugins_grow (srcBase dstBase : path) (nodes : list xml_handle) (s : state) :
  exists writes extra,
    for_each nodes (process_plugin srcBase dstBase) s
    = (Done tt, State (apply_writes writes (pluginFlags s)) (copies s ++ extra))
    /\ Forall (from_entry srcBase dstBase) extra.
Proof.
  revert s. induction nodes as [|h nodes IH]; intros s.
  - exists [], []. split; [|constructor]. simpl. returns. reflexivity.
  - rewrite for_each_cons, process_plugin_run.
    edestruct IH as (writes & extra & -> & Hst). cbn [pluginFlags copies].
    exists (flag_writes (self h) ++ writes)%list. eexists. split.
    + rewrite apply_writes_app, <- app_assoc. reflexivity.
    + apply Forall_app. split; [|exact Hst].
      destruct (hidden_at h _); [constructor|].
      unfold plugin_mappings. destruct (child (self h) "files");
        [apply entry_mappings_from_entry | constructor].
Qed.

Section Growth.

Variable select_nodes : engine.

Lemma selectors_grow (doc : xml_document) (srcBase dstBase : path)
    (groups : list json) (s : state) :
  exists r writes extra,
    for_each groups (process_selector select_nodes doc srcBase dstBase) s
    = (r, State (apply_writes writes (pluginFlags s)) (copies s ++ extra))
    /\ Forall (from_entry srcBase dstBase) extra
    /\ match r with Done _ => True | Thrown e => query_error e end.
Proof.
  revert s. induction groups as [|g groups IH]; intros s.
  - exists (Done tt), [], []. split; [|split; [constructor | exact I]].
    simpl. returns. reflexivity.
  - rewrite for_each_cons, process_selector_run.
    destruct (selector_names g) as [[[a b] c]|].
    2:{ exists (Thrown json_exception), [], [].
        split; [|split; [constructor | left; reflexivity]].
        simpl. rewrite app_nil_r, state_eta. reflexivity. }
    destruct (select_nodes doc (plugin_xpath a b c)) as [nodes|].
    2:{ exists (Thrown xpath_exception), [], [].
        split; [|split; [constructor | right; reflexivity]].
        simpl. rewrite app_nil_r, state_eta. reflexivity. }
    destruct (plugins_grow srcBase dstBase nodes s) as (w1 & e1 & -> & H1).
    edestruct IH as (r & w2 & e2 & -> & H2 & Hr). cbn [pluginFlags copies].
    exists r, (w1 ++ w2)%list, (e1 ++ e2)%list. split; [|split].
    + rewrite apply_writes_app, <- app_assoc. reflexivity.
    + apply Forall_app. split; assumption.
    + exact Hr.
Qed.

Lemma resolve_grows (doc : xml_document) (config : json)
    (srcBase dstBase : path) (s : state) :
  exists r writes extra,
    resolve select_nodes doc config srcBase dstBase s
    = (r, State (apply_writes writes (pluginFlags s)) (copies s ++ extra))
    /\ Forall (from_entry srcBase dstBase) extra
    /\ match r with Done _ => True | Thrown e => query_error e end.
Proof.
  unfold resolve. rewrite run_bind. unfold required_phase, select at 1.
  rewrite run_bind.
  destruct (select_nodes doc required_xpath) as [required|].
  2:{ exists (Thrown xpath_exception), [], [].
      split; [|split; [constructor | right; reflexivity]].
      simpl. rewrite app_nil_r, state_eta. reflexivity. }
  cbv [mret M_ret ret]. rewrite install_entries_run, run_bind.
  set (sA := State _ _).
  assert (HB : exists r writes extra,
             selector_phase select_nodes doc config srcBase dstBase sA
             = (r, State (apply_writes writes (pluginFlags sA)) (copies sA ++ extra))
             /\ Forall (from_entry srcBase dstBase) extra
             /\ match r with Done _ => True | Thrown e => query_error e end).
  { unfold selector_phase.
    destruct (contains config "installFiles" && _).
    - apply selectors_grow.
    - exists (Done tt), [], []. split; [|split; [constructor | exact I]].
      returns. reflexivity. }
  destruct HB as (r & wB & eB & -> & HeB & Hr). subst sA. cbn [pluginFlags copies].
  destruct r as [[]|e].
  - rewrite pattern_phase_run. cbn [pluginFlags copies].
    destruct (select_nodes doc pattern_xpath) as [patterns|].
    + exists (Done tt), wB. eexists. split; [|split; [|exact I]].
      * rewrite <- !app_assoc. reflexivity.
      * repeat (apply Forall_app; split); try assumption.
        -- apply entry_mappings_from_entry.
        -- clear. induction (self <$> patterns) as [|p ps IH]; simpl; [constructor|].
           apply Forall_app. split; [|exact IH].
           unfold pattern_mappings. destruct (match child p "dependencies" with
                                              | Some d => _ | None => _ end);
             [apply entry_mappings_from_entry | constructor].
    + exists (Thrown xpath_exception), wB. eexists.
      split; [|split; [|right; reflexivity]].
      * rewrite <- app_assoc. reflexivity.
      * apply Forall_app. split; [apply entry_mappings_from_entry | assumption].
  - exists (Thrown e), wB. eexists. split; [|split; [|exact Hr]].
    + rewrite <- app_assoc. reflexivity.
    + apply Forall_app. split; [apply entry_mappings_from_entry | assumption].
Qed.

End Growth.

(** ** Failing inputs of [install] *)

(** X15: a side file that is there but is not JSON makes the call fail
    with the JSON exception in either branch, whatever the archive holds,
    before any copy and without touching the flags. *)
Theorem malformed_json_fails (select_nodes : engine) (c : Call)
    (root : list fs_entry) (s : state) :
  extracted c = Some root ->
  json_file c = Some None ->
  install select_nodes c s = (Thrown json_exception, s).
Proof.
  intros He Hj. unfold install. rewrite He.
  destruct (find_fomod_in (newTempDir c // "archive") root) as [[[f b] mc]|].
  - unfold install_fomod, parseJson. rewrite Hj. reflexivity.
  - unfold install_nested, load_moduleName, parseJson. rewrite Hj.
    rewrite bool_decide_eq_true_2 by eauto. reflexivity.
Qed.

Lemma malformed_json_fails_witness :
  install Reference.select_nodes (Sample.call_with [Sample.readme] (Some None))
          (State ∅ [])
    = (Thrown json_exception, State ∅ [])
  /\ install Reference.select_nodes (Sample.call_with Sample.fomod_archive (Some None))
             (State ∅ [])
     = (Thrown json_exception, State ∅ []).
Proof.
  split.
  - apply (malformed_json_fails Reference.select_nodes
             (Sample.call_with [Sample.readme] (Some None)) [Sample.readme]);
      reflexivity.
  - apply (malformed_json_fails Reference.select_nodes
             (Sample.call_with Sample.fomod_archive (Some None)) Sample.fomod_archive);
      reflexivity.
Defined.

(** X16: a failed extraction ends the call with the message naming the
    archive; in the module-config branch, with a well-formed side file, a
    [ModuleConfig.xml] that does not load ends it with the parser's
    description in the message.  Neither copies anything nor changes a
    flag. *)
Theorem unreadable_inputs_fail (select_nodes : engine) (c : Call) (s : state) :
  (extracted c = None ->
   install select_nodes c s
   = (Thrown (runtime_error ("Failed to extract archive: " +:+ archivePath c)), s))
  /\ (forall root fomodFolder srcBase nm description config,
        extracted c = Some root ->
        find_fomod_in (newTempDir c // "archive") root
          = Some (fomodFolder, srcBase, fs_file nm (inl description)) ->
        json_file c = Some (Some config) ->
        install select_nodes c s
        = (Thrown (runtime_error ("Cannot parse XML (" +:+ description +:+ ")")), s)).
Proof.
  split.
  - intros He. unfold install. rewrite He. reflexivity.
  - intros root f b nm description config He Hf Hj.
    unfold install. rewrite He, Hf. unfold install_fomod, parseJson.
    rewrite Hj. reflexivity.
Qed.

(** ** The nested-folder branch as a whole *)

Lemma load_moduleName_cases (c : Call) (s : state) :
  load_moduleName c s = (Thrown json_exception, s)
  \/ exists key, load_moduleName c s = (Done key, s).
Proof.
  destruct (json_file c) as [[j|]|] eqn:Hj.
  - right. eexists. apply load_moduleName_run. rewrite Hj. discriminate.
  - left. unfold load_moduleName, parseJson. rewrite Hj.
    rewrite bool_decide_eq_true_2 by eauto. reflexivity.
  - right. eexists. apply load_moduleName_run. rewrite Hj. discriminate.
Qed.

(** The errors the nested-folder branch raises itself. *)
Lemma nested_branch_outcomes (select_nodes : engine) (c : Call)
    (root : list fs_entry) (s : state) :
  extracted c = Some root ->
  find_fomod_in (newTempDir c // "archive") root = None ->
  exists r extra,
    install select_nodes c s = (r, State (pluginFlags s) (copies s ++ extra))
    /\ match r with
       | Done p => p = modPath c
       | Thrown e =>
           extra = []
           /\ (e = json_exception
               \/ e = runtime_error
                     "Multiple mod folders detected but no moduleName in JSON to disambiguate."
               \/ (exists key,
                     e = runtime_error
                           ("moduleName '" +:+ key +:+ "' did not match any folder."))
               \/ (exists key,
                     e = runtime_error
                           ("moduleName '" +:+ key +:+ "' matched multiple folders.")))
       end.
Proof.
  intros He Hf. rewrite (install_nested_eq select_nodes c root s He Hf).
  unfold install_nested. rewrite run_bind.
  destruct (load_moduleName_cases c s) as [-> | [key ->]].
  - exists (Thrown json_exception), []. rewrite app_nil_r, state_eta.
    split; [reflexivity|]. split; [reflexivity|]. left. reflexivity.
  - destruct (List.filter is_main_mod_folder root) as [|c1 [|c2 rest]].
    + eexists (Done _), _. split; reflexivity.
    + rewrite run_bind, copy_contents_run. eexists (Done _), _. split; reflexivity.
    + rewrite run_bind. unfold disambiguate.
      destruct (bool_decide _).
      { eexists (Thrown _), []. rewrite app_nil_r, state_eta.
        split; [reflexivity|]. split; [reflexivity|]. right. left. reflexivity. }
      destruct (List.filter _ (c1 :: c2 :: rest)) as [|m1 [|m2 ms]].
      * eexists (Thrown _), []. rewrite app_nil_r, state_eta.
        split; [reflexivity|]. split; [reflexivity|].
        right. right. left. eexists. reflexivity.
      * rewrite copy_contents_run. eexists (Done _), _. split; reflexivity.
      * eexists (Thrown _), []. rewrite app_nil_r, state_eta.
        split; [reflexivity|]. split; [reflexivity|].
        right. right. right. eexists. reflexivity.
Qed.



Lemma install_nested_filtered (c : Call) (archiveRoot : path)
    (root : list fs_entry) (s : state) :
  List.filter is_main_mod_folder root <> [] ->
  install_nested c archiveRoot root s
  = install_nested c archiveRoot (List.filter is_main_mod_folder root) s.
Proof.
  intros _. unfold install_nested. rewrite !run_bind.
  rewrite filter_filter_same. reflexivity.
Qed.

(** X18: once the archive root has a candidate folder, everything else at
    the root (loose files, folders without a marker) is left out: the
    branch does what it does on the candidates alone. *)
Theorem non_candidates_are_dropped (c : Call) (archiveRoot : path)
    (root : list fs_entry) (s : state) :
  List.filter is_main_mod_folder root <> [] ->
  install_nested c archiveRoot root s
  = install_nested c archiveRoot (List.filter is_main_mod_folder root) s
  /\ forall r s' m,
       install_nested c archiveRoot root s = (r, s') ->
       m ∈ copies s' -> m ∈ copies s \/
       exists cand entry,
         cand ∈ root /\ is_main_mod_folder cand = true
         /\ entry ∈ dir_entries cand
         /\ source m = archiveRoot // entry_name cand // entry_name entry.
Proof.
  intros Hne. split; [apply install_nested_filtered, Hne|].
  intros r s' m Hrun Hm. unfold install_nested in Hrun. rewrite run_bind in Hrun.
  assert (Hhoist : forall cand,
            cand ∈ List.filter is_main_mod_folder root ->
            m ∈ (copies s ++ hoisted c (archiveRoot // entry_name cand)
                                     (dir_entries cand))%list ->
            m ∈ copies s \/
            exists cand entry,
              cand ∈ root /\ is_main_mod_folder cand = true
              /\ entry ∈ dir_entries cand
              /\ source m = archiveRoot // entry_name cand // entry_name entry).
  { intros cand Hc Hin. apply elem_of_app in Hin as [Hin|Hin]; [left; exact Hin|].
    right. unfold hoisted in Hin. apply list_elem_of_fmap in Hin as (entry & -> & He).
    exists cand, entry. apply list_elem_of_In, filter_In in Hc as [Hc1 Hc2].
    apply list_elem_of_In in Hc1. repeat split; assumption. }
  destruct (load_moduleName_cases c s) as [Hload | [key Hload]];
    rewrite Hload in Hrun.
  { injection Hrun as <- <-. left. exact Hm. }
  destruct (List.filter is_main_mod_folder root) as [|c1 [|c2 rest]] eqn:Hcands;
    [congruence| |].
  - rewrite run_bind, copy_contents_run in Hrun. injection Hrun as <- <-.
    apply (Hhoist c1); [apply list_elem_of_here | exact Hm].
  - rewrite run_bind in Hrun. unfold disambiguate in Hrun.
    destruct (bool_decide (key = EmptyString)).
    { injection Hrun as <- <-. left. exact Hm. }
    destruct (List.filter _ (c1 :: c2 :: rest)) as [|m1 [|m2 ms]] eqn:Hmatch.
    + injection Hrun as <- <-. left. exact Hm.
    + rewrite copy_contents_run in Hrun. injection Hrun as <- <-.
      apply (Hhoist m1); [|exact Hm].
      assert (Hin : m1 ∈ List.filter
                (fun p => bool_decide (to_lower (entry_name p) = key))
                (c1 :: c2 :: rest)) by (rewrite Hmatch; apply list_elem_of_here).
      apply list_elem_of_In, filter_In in Hin as [Hin _].
      apply list_elem_of_In. exact Hin.
    + injection Hrun as <- <-. left. exact Hm.
Qed.

Lemma non_candidates_are_dropped_witness :
  install_nested (Sample.call_with [Sample.modX; Sample.readme] None) "tmp/archive"
                 [Sample.modX; Sample.readme] (State ∅ [])
  = install_nested (Sample.call_with [Sample.modX; Sample.readme] None) "tmp/archive"
                   [Sample.modX] (State ∅ []).
Proof.
  apply (non_candidates_are_dropped
           (Sample.call_with [Sample.modX; Sample.readme] None) "tmp/archive"
           [Sample.modX; Sample.readme] (State ∅ [])).
  discriminate.
Defined.

(** ** The module-config branch as a whole *)

Lemma install_fomod_grows (select_nodes : engine) (c : Call) (srcBase : path)
    (moduleConfig : fs_entry) (s : state) :
  let dstBase := newTempDir c // "unfomod" in
  exists r writes extra,
    Forall (from_entry srcBase dstBase) extra
    /\ install_fomod select_nodes c srcBase moduleConfig s
       = (r,
          State (apply_writes writes (pluginFlags s))
                (copies s ++ extra
                 ++ match r with
                    | Done _ => [Mapping file (jPath c) (dstBase // "mo2si.json");
                                 Mapping folder dstBase (modPath c)]
                    | Thrown _ => []
                    end))
    /\ match r with Done p => p = modPath c | Thrown e => config_error c e end.
Proof.
  intros dstBase. unfold install_fomod. fold dstBase.
  assert (Hstop : forall e,
            config_error c e ->
            exists (r : outcome path) writes extra,
              Forall (from_entry srcBase dstBase) extra
              /\ (Thrown e, s)
                 = (r, State (apply_writes writes (pluginFlags s))
                             (copies s ++ extra
                              ++ match r with
                                 | Done _ => [Mapping file (jPath c) (dstBase // "mo2si.json");
                                              Mapping folder dstBase (modPath c)]
                                 | Thrown _ => []
                                 end))
              /\ match r with Done p => p = modPath c | Thrown e => config_error c e end).
  { intros e He. exists (Thrown e), [], []. split; [constructor|]. split; [|exact He].
    simpl. rewrite app_nil_r, state_eta. reflexivity. }
  rewrite run_bind. unfold parseJson.
  destruct (json_file c) as [[config|]|];
    [| apply Hstop; right; right; left; reflexivity
     | apply Hstop; left; reflexivity].
  cbv [mret M_ret ret]. rewrite run_bind. unfold parseXml.
  destruct moduleConfig as [nm [description|doc]|nm es];
    [apply Hstop; right; left; eexists; reflexivity
    | | apply Hstop; right; left; eexists; reflexivity].
  cbv [mret M_ret ret]. rewrite run_bind.
  destruct (resolve_grows select_nodes doc config srcBase dstBase s)
    as (r & writes & extra & -> & Hst & Hr).
  destruct r as [[]|e].
  - exists (Done (modPath c)), writes, extra. split; [exact Hst|]. split; [|reflexivity].
    rewrite run_bind. unfold emit at 1. cbn [pluginFlags copies].
    rewrite run_bind. unfold copyFolder, emit. cbn [pluginFlags copies].
    cbv [mret M_ret ret]. rewrite <- !app_assoc. reflexivity.
  - exists (Thrown e), writes, extra. split; [exact Hst|]. split.
    + rewrite app_nil_r. reflexivity.
    + destruct Hr as [-> | ->]; [right; right; left | right; right; right]; reflexivity.
Qed.



(** X20: no call of [install] removes a flag from the table or takes back
    a copy: every key set before the call is set after it, whatever the
    outcome, and the copies issued before the call are a prefix of those
    after it. *)
Theorem install_only_adds (select_nodes : engine) (c : Call) (s : state) :
  let s' := snd (install select_nodes c s) in
  (forall k, is_Some (pluginFlags s !! k) -> is_Some (pluginFlags s' !! k))
  /\ exists extra, copies s' = (copies s ++ extra)%list.
Proof.
  intros s'. subst s'. unfold install.
  destruct (extracted c) as [root|] eqn:He.
  2:{ split; [intros k Hk; exact Hk|]. exists []. rewrite app_nil_r. reflexivity. }
  destruct (find_fomod_in (newTempDir c // "archive") root) as [[[f b] mc]|] eqn:Hf.
  - destruct (install_fomod_grows select_nodes c b mc s)
      as (r & writes & extra & _ & -> & _).
    cbn [snd pluginFlags copies]. split.
    + intros k Hk. rewrite apply_writes_lookup.
      destruct (written writes k); [eauto | exact Hk].
    + eexists. reflexivity.
  - destruct (nested_branch_outcomes select_nodes c root s He Hf)
      as (r & extra & Hrun & _).
    unfold install in Hrun. rewrite He, Hf in Hrun. rewrite Hrun.
    cbn [snd pluginFlags copies]. split; [intros k Hk; exact Hk|].
    eexists. reflexivity.
Qed.

(** ** Selectors, plugins and patterns: edge cases *)

(** X21: when the side file has no [installFiles] member, or one that is
    not an array, the selector pass does nothing, so the whole resolution
    leaves the flag table as the call found it. *)
Theorem no_selectors_no_flags (select_nodes : engine) (doc : xml_document)
    (config : json) (srcBase dstBase : path) (s : state) :
  (member config "installFiles" = None
   \/ exists v, member config "installFiles" = Some v /\ is_array v = false) ->
  selector_phase select_nodes doc config srcBase dstBase s = (Done tt, s)
  /\ pluginFlags (snd (resolve select_nodes doc config srcBase dstBase s))
     = pluginFlags s.
Proof.
  intros Hcfg.
  assert (Hsel : forall s0,
            selector_phase select_nodes doc config srcBase dstBase s0 = (Done tt, s0)).
  { intros s0. unfold selector_phase, contains.
    destruct Hcfg as [Hm | (v & Hm & Hv)]; rewrite Hm.
    - reflexivity.
    - change (default json_null (Some v)) with v.
      rewrite Hv, andb_false_r. reflexivity. }
  split; [apply Hsel|].
  unfold resolve. rewrite run_bind.
  pose proof (required_phase_flags select_nodes doc srcBase dstBase s) as HA.
  destruct (required_phase select_nodes doc srcBase dstBase s) as [[[]|e] sA];
    cbn [snd] in HA; [|exact HA].
  rewrite run_bind, Hsel, pattern_phase_run.
  destruct (select_nodes doc pattern_xpath); cbn [snd pluginFlags]; exact HA.
Qed.

Lemma no_selectors_no_flags_witness :
  selector_phase Reference.select_nodes Sample.moduleConfig Sample.select_nothing
                 "src" "dst" (State {[ "Quality" := "High" ]} [])
  = (Done tt, State {[ "Quality" := "High" ]} []).
Proof.
  apply (no_selectors_no_flags Reference.select_nodes Sample.moduleConfig
           Sample.select_nothing "src" "dst" (State {[ "Quality" := "High" ]} [])).
  left. reflexivity.
Defined.

(** X22: a selector without a string member [plugin] ends the selector
    pass with the JSON exception at that selector: nothing of it is done
    and the selectors after it are not looked at. *)
Theorem selector_without_plugin_aborts (select_nodes : engine)
    (doc : xml_document) (srcBase dstBase : path) (group : json)
    (rest : list json) (s : state) :
  (forall v, member group "plugin" <> Some (json_string v)) ->
  process_selector select_nodes doc srcBase dstBase group s
    = (Thrown json_exception, s)
  /\ for_each (group :: rest) (process_selector select_nodes doc srcBase dstBase) s
     = (Thrown json_exception, s).
Proof.
  intros Hplugin.
  assert (Hone : process_selector select_nodes doc srcBase dstBase group s
                 = (Thrown json_exception, s)).
  { rewrite process_selector_run.
    replace (selector_names group) with (@None (string * string * string));
      [reflexivity|].
    unfold selector_names. destruct (is_object group); [|reflexivity].
    destruct (member group "installStep") as [[]|]; try reflexivity;
      (destruct (member group "group") as [[]|]; try reflexivity;
       (destruct (member group "plugin") as [[]|]; try reflexivity;
        exfalso; eapply Hplugin; reflexivity)). }
  split; [exact Hone|]. rewrite for_each_cons, Hone. reflexivity.
Qed.

Lemma selector_without_plugin_aborts_witness :
  let bad := json_object [("installStep", json_string "Textures")] in
  let good := json_object [("plugin", json_string "2K")] in
  for_each [bad; good]
    (process_selector Reference.select_nodes Sample.moduleConfig "src" "dst")
    (State ∅ [])
  = (Thrown json_exception, State ∅ []).
Proof.
  intros bad good.
  apply (selector_without_plugin_aborts Reference.select_nodes Sample.moduleConfig
           "src" "dst" bad [good] (State ∅ [])).
  intros v. discriminate.
Defined.

(** X23: a plugin node that no [installStep] encloses, or whose step has
    no [visible] child, is never skipped: the visibility check answers at
    once without evaluating anything, and processing the plugin is applying
    its flags and then running the copy loop over the entries of its
    [files] child. *)
Theorem ungated_plugin_is_never_skipped (srcBase dstBase : path) (h : xml_handle)
    (s : state) :
  (enclosing_installStep h = None
   \/ exists installStepNode,
        enclosing_installStep h = Some installStepNode
        /\ child installStepNode "visible" = None) ->
  step_hidden h s = (Done false, s)
  /\ process_plugin srcBase dstBase h s
     = (extractFlags (self h);;
        install_entries srcBase dstBase
          (from_option children [] (child (self h) "files"))) s.
Proof.
  intros Hgate.
  assert (Hvisible : forall s0, step_hidden h s0 = (Done false, s0)).
  { intros s0. unfold step_hidden.
    destruct Hgate as [-> | (st & -> & ->)]; reflexivity. }
  split; [apply Hvisible|].
  unfold process_plugin. rewrite !run_bind.
  destruct (extractFlags (self h) s) as [[[]|e] s1]; [|reflexivity].
  rewrite run_bind, Hvisible.
  destruct (child (self h) "files"); reflexivity.
Qed.

Lemma ungated_plugin_is_never_skipped_witness :
  step_hidden (XmlHandle Sample.plugin_2K [Sample.plugins_node]) (State ∅ [])
    = (Done false, State ∅ [])
  /\ process_plugin "src" "dst" (XmlHandle Sample.plugin_2K [Sample.plugins_node])
                    (State ∅ [])
     = (extractFlags Sample.plugin_2K;;
        install_entries "src" "dst" [Sample.file_entry "file" "2k.bsa" "2k.bsa"])
         (State ∅ []).
Proof.
  apply (ungated_plugin_is_never_skipped "src" "dst"
           (XmlHandle Sample.plugin_2K [Sample.plugins_node]) (State ∅ [])).
  left. reflexivity.
Defined.

(** X24: a pattern without a [dependencies] child is never skipped:
    processing it is running the copy loop over the entries of its [files]
    child, whatever the flag table; a pattern without a [files] child asks
    for no copy and leaves the state as it was. *)
Theorem pattern_without_dependencies (srcBase dstBase : path) (pattern : xml_node)
    (s : state) :
  (child pattern "dependencies" = None ->
   process_pattern srcBase dstBase pattern s
   = install_entries srcBase dstBase
       (from_option children [] (child pattern "files")) s)
  /\ (child pattern "files" = None ->
      process_pattern srcBase dstBase pattern s = (Done tt, s)).
Proof.
  split.
  - intros Hdeps. unfold process_pattern. rewrite Hdeps. reflexivity.
  - intros Hfiles. rewrite process_pattern_run. unfold pattern_mappings.
    rewrite Hfiles. simpl.
    destruct (match child pattern "dependencies" with
              | Some d => evaluate d (pluginFlags s)
              | None => true
              end); simpl; rewrite app_nil_r, state_eta; reflexivity.
Qed.
